(** * ts-jest transformer: configuration-set cache, cache key and transform engine

    A shallow embedding of [src/ts-jest-transformer.ts].

    JavaScript objects live in a store and are named by locations, so that
    object identity ([===]), shallow copies ([{ ...o }]) and in-place updates
    ([o.k = v], [delete o.k]) are modelled as the source performs them.
    The collaborators the transformer imports ([ConfigSet], [stringify],
    the digest behind [sha1]) are parameters of the development.  The
    constructor of [ConfigSet] is handed the configuration object itself
    (line 63), so it is a function of the store that returns the store as
    it leaves it.  The collaborators are total functions: the transformer
    neither throws nor catches, so that an exception of a collaborator (a
    configuration that cannot be parsed, a syntax error in a compiled
    file) passes through it as it is, and the properties are about calls
    that return. *)

From Stdlib Require Import ZArith Ascii String List Lia.
From stdpp Require Import base option list gmap strings fin_maps pretty.

Set Warnings "-register-all".
Local Open Scope string_scope.
Local Open Scope list_scope.
Local Open Scope nat_scope.

(** ** JavaScript values *)

(** Plain data: the JSON-compatible values the transformer only reads. *)
Inductive json :=
  | JUndefined
  | JNull
  | JBool (b : bool)
  | JNum (z : Z)
  | JStr (s : string)
  | JArr (items : list json)
  | JObj (props : list (string * json)).

(** Objects are named by their position in the store. *)
Abbreviation loc := nat (only parsing).

(** A property of a project-configuration object holds plain data or a
    reference to a nested object (such as [globals]). *)
Inductive cval :=
  | CData (j : json)
  | CRef (l : loc).

(** The store.  [h_cfg] holds the objects whose properties may reference
    nested objects (project configurations and their copies); [h_obj] holds
    the nested objects themselves, whose properties are plain data: the
    transformer reads, copies and writes objects of these two levels only.
    A JS object is a finite map from property names to values; the order in
    which its properties were set is not kept, as its one reader, the
    canonical serialization, does not depend on it. *)
Record Heap := mkHeap {
  h_cfg : list (gmap string cval);
  h_obj : list (gmap string json)
}.

Definition cfg_at (h : Heap) (l : loc) : gmap string cval :=
  default ∅ (h_cfg h !! l).

Definition obj_at (h : Heap) (l : loc) : gmap string json :=
  default ∅ (h_obj h !! l).

(** [o.k]: a missing property reads as [undefined]. *)
Definition cfg_get (h : Heap) (l : loc) (k : string) : cval :=
  default (CData JUndefined) (cfg_at h l !! k).

Definition obj_get (h : Heap) (l : loc) (k : string) : json :=
  default JUndefined (obj_at h l !! k).

(** Object literals allocate a fresh object at the end of the store. *)
Definition alloc_cfg (h : Heap) (o : gmap string cval) : loc * Heap :=
  (length (h_cfg h), mkHeap (h_cfg h ++ [o]) (h_obj h)).

Definition alloc_obj (h : Heap) (o : gmap string json) : loc * Heap :=
  (length (h_obj h), mkHeap (h_cfg h) (h_obj h ++ [o])).

(** [o.k = v] on the object at [l], in place. *)
Definition set_cfg (h : Heap) (l : loc) (k : string) (v : cval) : Heap :=
  mkHeap (alter (insert k v) l (h_cfg h)) (h_obj h).

(** [delete o[k]] on the nested object at [l], in place. *)
Definition delete_obj (h : Heap) (l : loc) (k : string) : Heap :=
  mkHeap (h_cfg h) (alter (delete k) l (h_obj h)).

(** Own enumerable properties of indexed values (strings and arrays). *)
Fixpoint indexed (i : nat) (items : list json) : list (string * json) :=
  match items with
  | [] => []
  | x :: rest => (pretty i, x) :: indexed (S i) rest
  end.

Fixpoint chars (s : string) : list json :=
  match s with
  | EmptyString => []
  | String c rest => JStr (String c EmptyString) :: chars rest
  end.

(** The properties that [{ ...v }] copies: those of the object that [v]
    references or is; [undefined], [null], booleans and numbers have none. *)
Definition own_props (h : Heap) (v : cval) : gmap string json :=
  match v with
  | CRef l => obj_at h l
  | CData (JObj props) => list_to_map props
  | CData (JArr items) => list_to_map (indexed 0 items)
  | CData (JStr s) => list_to_map (indexed 0 (chars s))
  | CData _ => ∅
  end.

(** Reading a value out of the store as plain data. *)
Definition deref (h : Heap) (v : cval) : json :=
  match v with
  | CData j => j
  | CRef l => JObj (map_to_list (obj_at h l))
  end.

Definition snapshot (h : Heap) (l : loc) : json :=
  JObj (map_to_list (deref h <$> cfg_at h l)).

(** JS truthiness, as used by [!x] and [x ? a : b]. *)
Definition truthy (j : json) : bool :=
  match j with
  | JUndefined | JNull => false
  | JBool b => b
  | JNum z => negb (Z.eqb z 0)
  | JStr s => negb (String.eqb s EmptyString)
  | JArr _ | JObj _ => true
  end.

Definition json_get (k : string) (j : json) : json :=
  match j with
  | JObj props => default JUndefined (snd <$> List.find (λ p, String.eqb (fst p) k) props)
  | _ => JUndefined
  end.

(** ** Interfaces of the collaborators *)

(** [string | TransformedSource] *)
Inductive TransformResult :=
  | RString (code : string)
  | RSource (code : string) (map : json).

(** [babel-jest]: [process(code, filePath, rawConfig, options)].  It is
    given the configuration by reference and is taken to read it only, as
    is the [afterProcess] hook below. *)
Record BabelJest := {
  bj_process : string → string → loc → gmap string json → TransformResult
}.

(** The compiler wrapper: [compile(source, filePath)]. *)
Record TsCompiler := {
  compile : string → string → string
}.

Definition HookArgs : Type :=
  string * string * loc * option (gmap string json).

Record Hooks := {
  afterProcess : option (HookArgs → TransformResult → option TransformResult)
}.

Record ParsedTsConfig := {
  options : json;
  raw : json
}.

(** What a [ConfigSet] exposes to the transformer. *)
Record ConfigSetFields := {
  cf_rootDir : string;
  cf_tsJestDigest : string;
  cf_babelConfig : json;
  cf_parsedTsConfig : ParsedTsConfig;
  cf_shouldStringifyContent : string → bool;
  cf_babelJestTransformer : option BabelJest;
  cf_hooks : Hooks;
  cf_tsCompiler : TsCompiler
}.

(** A [ConfigSet] object: its identity in the process and what it exposes. *)
Record ConfigSet := {
  cs_id : nat;
  cs_fields : ConfigSetFields
}.

Definition rootDir (c : ConfigSet) := cf_rootDir (cs_fields c).
Definition tsJestDigest (c : ConfigSet) := cf_tsJestDigest (cs_fields c).
Definition babelConfig (c : ConfigSet) := cf_babelConfig (cs_fields c).
Definition parsedTsConfig (c : ConfigSet) := cf_parsedTsConfig (cs_fields c).
Definition shouldStringifyContent (c : ConfigSet) := cf_shouldStringifyContent (cs_fields c).
Definition babelJestTransformer (c : ConfigSet) := cf_babelJestTransformer (cs_fields c).
Definition hooks (c : ConfigSet) := cf_hooks (cs_fields c).
Definition tsCompiler (c : ConfigSet) := cf_tsCompiler (cs_fields c).

(** ** State of the process *)

(** Modelled from the spec: [JsonableValue] ([utils/jsonable-value] is not
    part of the sources at hand): the stored object reference together with
    its serialized form, computed when the value is built. *)
Record JsonableValue := {
  value : loc;
  serialized : string
}.

Record CachedConfigSet := {
  configSet : ConfigSet;
  jestConfig : JsonableValue;
  transformerCfgStr : string
}.

Inductive LogLevel := Debug | Info | Warn.

Record LogRecord := {
  level : LogLevel;
  fileName : option string;
  message : string
}.

(** What a call does besides returning: log records and calls made to the
    collaborators, in order. *)
Inductive Event :=
  | Logged (r : LogRecord)
  | Compiled (source filePath : string)
  | BabelProcessed (code filePath : string) (rawConfig : loc) (opts : gmap string json)
  | HookCalled (args : HookArgs) (result : TransformResult).

Record World := mkWorld {
  heap : Heap;
  _cachedConfigSets : list CachedConfigSet;   (* static, shared by all instances *)
  configSetsBuilt : nat;                       (* next [ConfigSet] identity *)
  trace : list Event
}.

Record TsJestTransformer := {
  _transformCfgStr : option string
}.

Definition emit (e : Event) (w : World) : World :=
  mkWorld (heap w) (_cachedConfigSets w) (configSetsBuilt w) (trace w ++ [e]).

Definition log (lv : LogLevel) (file : option string) (msg : string) : World → World :=
  emit (Logged {| level := lv; fileName := file; message := msg |}).

Definition initial_world (h : Heap) : World := mkWorld h [] 0 [].

(** ** Constants and messages *)

(** [String.prototype.endsWith]. *)
Definition endsWith (s suffix : string) : bool :=
  let n := String.length s in
  let m := String.length suffix in
  (m <=? n)%nat && String.eqb (substring (n - m) m s) suffix.

(** Modelled from the spec: the file-extension conventions of [./constants]
    (not part of the sources at hand): the declaration suffix [.d.ts], the
    JS/JSX suffix pattern and the TS/TSX suffix pattern. *)
Definition DECLARATION_TYPE_EXT : string := ".d.ts".
Definition JS_JSX_REGEX_test (s : string) : bool := endsWith s ".js" || endsWith s ".jsx".
Definition TS_TSX_REGEX_test (s : string) : bool := endsWith s ".ts" || endsWith s ".tsx".

(** Modelled from the spec: the warning texts of [utils/messages] (not part
    of the sources at hand).  Each names the file and gives the remediation;
    the first two are the texts the transformer's tests expect. *)
Definition GotJsFileButAllowJsFalse : string :=
  "Got a `.js` file to compile while `allowJs` option is not set to `true` (file: {{path}}). To fix this:
  - if you want TypeScript to process JS files, set `allowJs` to `true` in your TypeScript config (usually tsconfig.json)
  - if you do not want TypeScript to process your `.js` files, in your Jest config change the `transform` key which value is `ts-jest` so that it does not match `.js` files anymore".

Definition GotUnknownFileTypeWithoutBabel : string :=
  "Got a unknown file type to compile (file: {{path}}). To fix this, in your Jest config change the `transform` key which value is `ts-jest` so that it does not match this kind of files anymore.".

Definition GotUnknownFileTypeWithBabel : string :=
  "Got a unknown file type to compile (file: {{path}}). To fix this, in your Jest config change the `transform` key which value is `ts-jest` so that it does not match this kind of files anymore. If you still want Babel to process it, add another entry to the `transform` option with value `babel-jest` which key matches this type of files.".

(** Modelled from the spec: [interpolate(msg, { path })] of [utils/messages]
    puts the file path where the message has its [{{path}}] placeholder. *)
Fixpoint interpolate_from (skip : nat) (msg path : string) : string :=
  match msg with
  | EmptyString => EmptyString
  | String c rest =>
      match skip with
      | S n => interpolate_from n rest path
      | O =>
          if String.prefix "{{path}}" msg
          then path +:+ interpolate_from 7 rest path
          else String c (interpolate_from 0 rest path)
      end
  end.

Definition interpolate (msg path : string) : string := interpolate_from 0 msg path.

Definition NUL : string := String "000"%char EmptyString.

(** [CacheKeyOptions]: [config], and the optional [instrument] and [rootDir]. *)
Record CacheKeyOptions := {
  cko_config : loc;
  cko_instrument : option bool;
  cko_rootDir : option string
}.

(** [list.find(p)], with the position of the entry found so that it can be
    updated in place. *)
Definition find_by {A} (p : A → bool) (l : list A) : option (nat * A) :=
  list_find (λ x, p x = true) l.

(** ** Collaborators to run the transformer with

    Concrete collaborators, used to evaluate the transformer on examples. *)

Definition DQUOTE : string := String "034"%char EmptyString.

Definition hex_digit (n : N) : ascii :=
  nth (N.to_nat n) (list_ascii_of_string "0123456789abcdef") "f"%char.

(** The canonical JSON text of a value: object keys in sorted order,
    properties whose value is [undefined] left out, strings quoted and
    JSON-escaped. *)
Module StableJson.

Definition escape_char (c : ascii) : string :=
  let n := N_of_ascii c in
  if (n =? 34)%N then "\" +:+ DQUOTE
  else if (n =? 92)%N then "\\"
  else if (n =? 8)%N then "\b"
  else if (n =? 9)%N then "\t"
  else if (n =? 10)%N then "\n"
  else if (n =? 12)%N then "\f"
  else if (n =? 13)%N then "\r"
  else if (n <? 32)%N then
    "\u00" +:+ String (hex_digit (n / 16)) (String (hex_digit (n mod 16)) EmptyString)
  else String c EmptyString.

Fixpoint escape (s : string) : string :=
  match s with
  | EmptyString => EmptyString
  | String c rest => escape_char c +:+ escape rest
  end.

Definition quote (s : string) : string := DQUOTE +:+ escape s +:+ DQUOTE.

Fixpoint insert_by_key (p : string * string) (l : list (string * string))
  : list (string * string) :=
  match l with
  | [] => [p]
  | q :: rest =>
      if String.leb (fst p) (fst q) then p :: l else q :: insert_by_key p rest
  end.

Definition sort_by_key (l : list (string * string)) : list (string * string) :=
  foldr insert_by_key [] l.

(** [None] stands for [undefined]: nothing is printed. *)
Fixpoint render (j : json) : option string :=
  match j with
  | JUndefined => None
  | JNull => Some "null"
  | JBool b => Some (if b then "true" else "false")
  | JNum z => Some (pretty z)
  | JStr s => Some (quote s)
  | JArr items =>
      Some ("[" +:+ String.concat "," (List.map (λ x, default "null" (render x)) items)
                +:+ "]")
  | JObj props =>
      let rendered :=
        List.flat_map (λ p, match render (snd p) with
                            | Some s => [(fst p, s)]
                            | None => []
                            end) props in
      Some ("{" +:+ String.concat ","
                      (List.map (λ p, quote (fst p) +:+ ":" +:+ snd p)
                                (sort_by_key rendered))
                +:+ "}")
  end.

(** Modelled from the spec: [stringify] of [utils/json] (not part of the
    sources at hand), the canonical, deterministic text form of a
    JSON-compatible value, the same for values that are deeply equal
    whatever the order of their keys. *)
Definition stringify (j : json) : string := default "undefined" (render j).

End StableJson.

(** The SHA-1 digest (FIPS 180-4) of a byte string. *)
Module SHA1.
Local Open Scope Z_scope.

Definition word (x : Z) : Z := x mod 2 ^ 32.

Definition rotl (n x : Z) : Z :=
  word (Z.lor (Z.shiftl x n) (Z.shiftr x (32 - n))).

Definition bytes_of (s : string) : list Z :=
  List.map (λ c, Z.of_N (N_of_ascii c)) (list_ascii_of_string s).

(** The [count] low-order bytes of [x], most significant first. *)
Fixpoint be_bytes (count : nat) (x : Z) : list Z :=
  match count with
  | O => []
  | S n => (Z.shiftr x (8 * Z.of_nat n)) mod 256 :: be_bytes n x
  end.

Definition pad (msg : list Z) : list Z :=
  let len := Z.of_nat (length msg) in
  msg ++ [128] ++ repeat 0 (Z.to_nat ((55 - len) mod 64)) ++ be_bytes 8 (8 * len).

Fixpoint words_of (bytes : list Z) : list Z :=
  match bytes with
  | a :: b :: c :: d :: rest =>
      (Z.shiftl a 24 + Z.shiftl b 16 + Z.shiftl c 8 + d) :: words_of rest
  | _ => []
  end.

(** The message schedule, latest word first. *)
Fixpoint extend (n : nat) (rev_ws : list Z) : list Z :=
  match n with
  | O => rev_ws
  | S n =>
      let w := rotl 1 (Z.lxor (Z.lxor (nth 2 rev_ws 0) (nth 7 rev_ws 0))
                              (Z.lxor (nth 13 rev_ws 0) (nth 15 rev_ws 0))) in
      extend n (w :: rev_ws)
  end.

Definition State : Type := Z * Z * Z * Z * Z.

Definition round (st : State) (tw : nat * Z) : State :=
  let '(a, b, c, d, e) := st in
  let '(t, w) := tw in
  let '(f, k) :=
    if (t <? 20)%nat then
      (Z.lor (Z.land b c) (Z.land (Z.lxor b 4294967295) d), 1518500249)
    else if (t <? 40)%nat then
      (Z.lxor (Z.lxor b c) d, 1859775393)
    else if (t <? 60)%nat then
      (Z.lor (Z.lor (Z.land b c) (Z.land b d)) (Z.land c d), 2400959708)
    else
      (Z.lxor (Z.lxor b c) d, 3395469782) in
  (word (rotl 5 a + f + e + k + w), a, rotl 30 b, c, d).

Definition compress (st : State) (block : list Z) : State :=
  let ws := rev (extend 64 (rev block)) in
  let '(a, b, c, d, e) := fold_left round (combine (seq 0 80) ws) st in
  let '(h0, h1, h2, h3, h4) := st in
  (word (h0 + a), word (h1 + b), word (h2 + c), word (h3 + d), word (h4 + e)).

Fixpoint compress_all (blocks : nat) (ws : list Z) (st : State) : State :=
  match blocks with
  | O => st
  | S n => compress_all n (drop 16 ws) (compress st (take 16 ws))
  end.

Definition initial : State :=
  (1732584193, 4023233417, 2562383102, 271733878, 3285377520).

Fixpoint hex_of (digits : nat) (x : Z) : string :=
  match digits with
  | O => EmptyString
  | S n => String (hex_digit (Z.to_N ((Z.shiftr x (4 * Z.of_nat n)) mod 16))) (hex_of n x)
  end.

(** Modelled from the spec: the digest behind [sha1] of [utils/sha1] (not
    part of the sources at hand), a cryptographic content digest of 40
    hexadecimal characters: SHA-1, in lower-case hexadecimal. *)
Definition sha1_hex (s : string) : string :=
  let ws := words_of (pad (bytes_of s)) in
  let '(h0, h1, h2, h3, h4) := compress_all (length ws / 16) ws initial in
  hex_of 8 h0 +:+ hex_of 8 h1 +:+ hex_of 8 h2 +:+ hex_of 8 h3 +:+ hex_of 8 h4.

End SHA1.

(** A constructor that only reads the configuration it is given: the set
    is derived from the content of the object, and the store is left as it
    is. *)
Definition read_only (derive : json → ConfigSetFields) (h : Heap) (jestConfig : loc)
  : ConfigSetFields * Heap :=
  (derive (snapshot h jestConfig), h).

(** A configuration set to evaluate the transformer with, and a store of
    project configurations. *)
Module Sample.

Definition pattern_suffix (re : string) : option string :=
  match re with
  | String c rest =>
      if Ascii.eqb c "\"%char && endsWith rest "$"
      then Some (substring 0 (String.length rest - 1) rest)
      else None
  | EmptyString => None
  end.

Definition babelJest : BabelJest :=
  {| bj_process code filePath rawConfig opts :=
       RSource ("/* babel */ " +:+ code) (JObj (map_to_list opts)) |}.

Definition compiler : TsCompiler :=
  {| compile source filePath := "/* compiled */ " +:+ source |}.

(** Modelled from the spec: [new ConfigSet(jestConfig)] ([config/config-set]
    is not part of the sources at hand), as far as the transformer's tests
    rely on it: the compiler options come from the [tsconfig] of the
    [ts-jest] globals, a secondary transform is configured when their
    [babelConfig] is set, and the stringify pattern is their
    [stringifyContentPathRegex] (here a pattern of the form [\.ext$]). *)
Definition ConfigSet_new (cfg : json) : ConfigSetFields :=
  let tsJest := json_get "ts-jest" (json_get "globals" cfg) in
  let tsconfig := json_get "tsconfig" tsJest in
  {| cf_rootDir := match json_get "rootDir" cfg with JStr s => s | _ => "/" end;
     cf_tsJestDigest := "a0d51ca854194df8191d0e65c0ca4730f510f332";
     cf_babelConfig := json_get "babelConfig" tsJest;
     cf_parsedTsConfig :=
       {| options := match tsconfig with JObj _ => tsconfig | _ => JObj [] end;
          raw := JObj [("compilerOptions", tsconfig)] |};
     cf_shouldStringifyContent filePath :=
       match json_get "stringifyContentPathRegex" tsJest with
       | JStr re =>
           match pattern_suffix re with
           | Some suffix => endsWith filePath suffix
           | None => false
           end
       | _ => false
       end;
     cf_babelJestTransformer :=
       if truthy (json_get "babelConfig" tsJest) then Some babelJest else None;
     cf_hooks := {| afterProcess := None |};
     cf_tsCompiler := compiler |}.

(** The same, with an [afterProcess] hook that replaces every result. *)
Definition hooked_ConfigSet_new (cfg : json) : ConfigSetFields :=
  let f := ConfigSet_new cfg in
  {| cf_rootDir := cf_rootDir f;
     cf_tsJestDigest := cf_tsJestDigest f;
     cf_babelConfig := cf_babelConfig f;
     cf_parsedTsConfig := cf_parsedTsConfig f;
     cf_shouldStringifyContent := cf_shouldStringifyContent f;
     cf_babelJestTransformer := cf_babelJestTransformer f;
     cf_hooks := {| afterProcess := Some (λ _ _, Some (RString "/* hooked */")) |};
     cf_tsCompiler := cf_tsCompiler f |}.

Definition tsJest_globals (tsJest : list (string * json)) : gmap string json :=
  {[ "ts-jest" := JObj tsJest ]}.

Definition project (globals : loc) : gmap string cval :=
  {[ "rootDir" := CData (JStr "/project"); "globals" := CRef globals ]}.

(** A store with ten project configurations, each with its own [globals]
    object. *)
Definition store : Heap :=
  mkHeap
    [ (* 0 *) project 0;
      (* 1 *) project 1;
      (* 2 *) project 2;
      (* 3 *) <["name" := CData (JStr "one")]>
                (<["cacheDirectory" := CData (JStr "/tmp/jest")]> (project 3));
      (* 4 *) project 4;
      (* 5 *) project 5;
      (* 6 *) project 6;
      (* 7 *) project 7;
      (* 8 *) project 8;
      (* 9 *) ∅ ]
    [ (* 0 *) tsJest_globals [("tsconfig", JObj [("allowJs", JBool true)])];
      (* 1 *) tsJest_globals [("tsconfig", JObj [("allowJs", JBool true)])];
      (* 2 *) tsJest_globals [("tsconfig", JObj [("allowJs", JBool false)])];
      (* 3 *) <["__DEV__" := JBool true]> (tsJest_globals []);
      (* 4 *) {[ "__DEV__" := JBool true ]};
      (* 5 *) tsJest_globals [("stringifyContentPathRegex", JStr "\.html$")];
      (* 6 *) tsJest_globals [("babelConfig", JBool true)];
      (* 7 *) tsJest_globals [("babelConfig", JBool true);
                              ("stringifyContentPathRegex", JStr "\.html$")];
      (* 8 *) tsJest_globals [("stringifyContentPathRegex", JStr "\.ts$")] ].

Definition world : World := initial_world store.

Definition this : TsJestTransformer := {| _transformCfgStr := None |}.

End Sample.

(** More project configurations: with properties of their own named
    [digest], [babel] and [tsconfig], which meet those of the signature
    (lines 72-80). *)
Module Shadowing.

Definition store : Heap :=
  mkHeap
    [ (* 0 *) {[ "rootDir" := CData (JStr "/project") ]};
      (* 1 *) {[ "rootDir" := CData (JStr "/project");
                 "tsconfig" := CData (JStr "tsconfig.spec.json") ]};
      (* 2 *) {[ "rootDir" := CData (JStr "/project");
                 "digest" := CData (JStr "mine") ]} ]
    [].

Definition world : World := initial_world store.

(** Two sets that differ in their digest only. *)
Definition set_with_digest (d : string) : ConfigSet :=
  {| cs_id := 0;
     cs_fields :=
       {| cf_rootDir := "/project";
          cf_tsJestDigest := d;
          cf_babelConfig := JUndefined;
          cf_parsedTsConfig := {| options := JObj []; raw := JObj [] |};
          cf_shouldStringifyContent := λ _, false;
          cf_babelJestTransformer := None;
          cf_hooks := {| afterProcess := None |};
          cf_tsCompiler := Sample.compiler |} |}.

End Shadowing.

(** Project configurations with deprecated keys, and a constructor that
    removes them from the object it is given. *)
Module Deprecated.

Definition without_key (k : string) (j : json) : json :=
  match j with
  | JObj props => JObj (List.filter (λ p, negb (String.eqb (fst p) k)) props)
  | _ => j
  end.

(** [delete globals.__TRANSFORM_HTML__] and [delete globals['ts-jest'].typeCheck] *)
Definition prune (globals : gmap string json) : gmap string json :=
  alter (without_key "typeCheck") "ts-jest" (delete "__TRANSFORM_HTML__" globals).

(** Modelled from the spec: [new ConfigSet(jestConfig)] ([config/config-set]
    is not part of the sources at hand), here as a constructor that also
    normalises the object it is given, which line 63 passes as it is and
    not as a copy: the deprecated keys [__TRANSFORM_HTML__] of [globals]
    and [typeCheck] of the [ts-jest] globals are deleted in place.  The set
    is derived from what is left, as [Sample.ConfigSet_new] derives it. *)
Definition ConfigSet_new (h : Heap) (jestConfig : loc) : ConfigSetFields * Heap :=
  let h' := match cfg_get h jestConfig "globals" with
            | CRef globals => mkHeap (h_cfg h) (alter prune globals (h_obj h))
            | CData _ => h
            end in
  (Sample.ConfigSet_new (snapshot h' jestConfig), h').

Definition store : Heap :=
  mkHeap
    [ (* 0 *) {[ "globals" := CRef 0 ]};
      (* 1 *) {[ "globals" := CRef 1 ]};
      (* 2 *) {[ "globals" := CRef 2 ]};
      (* 3 *) {[ "rootDir" := CData (JStr "/project"); "globals" := CRef 3 ]};
      (* 4 *) {[ "rootDir" := CData (JStr "/project"); "globals" := CRef 4 ]} ]
    [ (* 0 *) {[ "__TRANSFORM_HTML__" := JBool true ]};
      (* 1 *) {[ "__TRANSFORM_HTML__" := JBool true ]};
      (* 2 *) {[ "__TRANSFORM_HTML__" := JBool true;
                 "ts-jest" := JObj [("typeCheck", JBool true)] ]};
      (* 3 *) {[ "ts-jest" := JObj [("tsconfig", JObj [("allowJs", JBool true)])] ]};
      (* 4 *) {[ "ts-jest" := JObj [("tsconfig", JObj [("allowJs", JBool true)])] ]} ].

Definition world : World := initial_world store.

(** The [globals] of a configuration hold no deprecated key. *)
Definition clean (h : Heap) (jestConfig : loc) : Prop :=
  match cfg_get h jestConfig "globals" with
  | CRef globals => prune (obj_at h globals) = obj_at h globals
  | CData _ => True
  end.

End Deprecated.

(** Two project configurations that become equal when the owner of the
    first gives it the name of the second. *)
Module Stale.

Definition store : Heap :=
  mkHeap
    [ (* 0 *) {[ "rootDir" := CData (JStr "/project") ]};
      (* 1 *) {[ "rootDir" := CData (JStr "/project"); "name" := CData (JStr "renamed") ]} ]
    [].

Definition world : World := initial_world store.


End Stale.

Section Transformer.

(** [stringify] of [utils/json]: the canonical serialization. *)
Variable stringify : json → string.
(** [new ConfigSet(jestConfig)]: the constructor is given the object, which
    it may read and change in place, as it may any object of the store; it
    returns what the built set exposes, and the store as it leaves it. *)
Variable ConfigSet_new : Heap → loc → ConfigSetFields * Heap.
(** The content digest behind [sha1] of [utils/sha1]. *)
Variable digest : string → string.

(** Modelled from the spec: [sha1(...data)] ([utils/sha1] is not part of
    the sources at hand) is the digest of the concatenation of the
    segments. *)
Definition sha1 (data : list string) : string :=
  digest (String.concat EmptyString data).

(** [constructor()] *)
Definition TsJestTransformer_new (w : World) : TsJestTransformer * World :=
  ({| _transformCfgStr := None |}, log Debug None "created new transformer" w).

(** Lines 64-71: the copy of the configuration that enters the signature. *)
Definition stripped_copy (h : Heap) (jestConfig : loc) : loc * Heap :=
  let '(jest, h) := alloc_cfg h (cfg_at h jestConfig) in
  let '(globals, h) := alloc_obj h (own_props h (cfg_get h jest "globals")) in
  let h := set_cfg h jest "globals" (CRef globals) in
  let h := set_cfg h jest "name" (CData JUndefined) in
  let h := set_cfg h jest "cacheDirectory" (CData JUndefined) in
  let h := delete_obj h globals "ts-jest" in
  (jest, h).

(** Lines 64-80: the transform signature of a freshly built set. *)
Definition transformSignature (h : Heap) (configSet : ConfigSet) (jestConfig : loc)
  : string * Heap :=
  let '(jest, h) := stripped_copy h jestConfig in
  let '(tsconfig, h) :=
    alloc_obj h (<["raw" := raw (parsedTsConfig configSet)]>
                 (<["options" := options (parsedTsConfig configSet)]> ∅)) in
  let '(sig, h) :=
    alloc_cfg h (<["tsconfig" := CRef tsconfig]>
                 (cfg_at h jest ∪
                  <["babel" := CData (babelConfig configSet)]>
                  (<["digest" := CData (JStr (tsJestDigest configSet))]> ∅))) in
  (stringify (snapshot h sig), h).

(** [e.jestConfig.value = v] (line 56): the entry now stores [v]; its
    serialized form, by which it was found, is that of [v] too. *)
Definition with_value (e : CachedConfigSet) (v : loc) : CachedConfigSet :=
  {| configSet := configSet e;
     jestConfig := {| value := v; serialized := serialized (jestConfig e) |};
     transformerCfgStr := transformerCfgStr e |}.

Definition configsFor (this : TsJestTransformer) (jestCfg : loc) (w : World)
  : ConfigSet * TsJestTransformer * World :=
  match find_by (λ cs, Nat.eqb (value (jestConfig cs)) jestCfg) (_cachedConfigSets w) with
  | Some (_, ccs) =>
      (configSet ccs, {| _transformCfgStr := Some (transformerCfgStr ccs) |}, w)
  | None =>
      (* try to look-it up by stringified version *)
      let serializedJestCfg := stringify (snapshot (heap w) jestCfg) in
      match find_by (λ cs, String.eqb (serialized (jestConfig cs)) serializedJestCfg)
                    (_cachedConfigSets w) with
      | Some (i, serializedCcs) =>
          (* update the object so that we can find it later *)
          (configSet serializedCcs,
           {| _transformCfgStr := Some (transformerCfgStr serializedCcs) |},
           mkWorld (heap w)
                   (<[i := with_value serializedCcs jestCfg]> (_cachedConfigSets w))
                   (configSetsBuilt w) (trace w))
      | None =>
          (* create the new record in the index *)
          let w := log Info None "no matching config-set found, creating a new one" w in
          let '(fields, h) := ConfigSet_new (heap w) jestCfg in
          let cs := {| cs_id := configSetsBuilt w; cs_fields := fields |} in
          let '(sig, h) := transformSignature h cs jestCfg in
          (cs, {| _transformCfgStr := Some sig |},
           mkWorld h
                   (_cachedConfigSets w ++
                    [{| configSet := cs;
                        jestConfig := {| value := jestCfg;
                                         serialized := stringify (snapshot h jestCfg) |};
                        transformerCfgStr := sig |}])
                   (S (configSetsBuilt w)) (trace w))
      end
  end.

(** [{ ...transformOptions, instrument: false }] *)
Definition without_instrument (transformOptions : option (gmap string json))
  : gmap string json :=
  <["instrument" := JBool false]> (default ∅ transformOptions).

Definition process (this : TsJestTransformer) (input filePath : string) (jestCfg : loc)
    (transformOptions : option (gmap string json)) (w : World)
  : TransformResult * TsJestTransformer * World :=
  let w := log Debug (Some filePath) ("processing " +:+ filePath) w in
  let source := input in
  let '(configs, this, w) := configsFor this jestCfg w in
  let hks := hooks configs in
  let shouldStringify := shouldStringifyContent configs filePath in
  let babelJest := if shouldStringify then None else babelJestTransformer configs in
  let isDefinitionFile := endsWith filePath DECLARATION_TYPE_EXT in
  let isJsFile := JS_JSX_REGEX_test filePath in
  let isTsFile := negb isDefinitionFile && TS_TSX_REGEX_test filePath in
  let '(result, w) :=
    if shouldStringify then
      (* handles here what we should simply stringify *)
      ("module.exports=" +:+ stringify (JStr source), w)
    else if isDefinitionFile then
      (* do not try to compile declaration files *)
      (EmptyString, w)
    else if negb (truthy (json_get "allowJs" (options (parsedTsConfig configs)))) && isJsFile then
      (source, log Warn (Some filePath) (interpolate GotJsFileButAllowJsFalse filePath) w)
    else if isJsFile || isTsFile then
      (* transpile TS code *)
      (compile (tsCompiler configs) source filePath, emit (Compiled source filePath) w)
    else
      let message := match babelJest with
                     | Some _ => GotUnknownFileTypeWithBabel
                     | None => GotUnknownFileTypeWithoutBabel
                     end in
      (source, log Warn (Some filePath) (interpolate message filePath) w)
  in
  (* calling babel-jest transformer *)
  let '(result, w) :=
    match babelJest with
    | Some bj =>
        let w := log Debug (Some filePath) "calling babel-jest processor" w in
        (* do not instrument here, jest will do it anyway afterwards *)
        let opts := without_instrument transformOptions in
        (bj_process bj result filePath jestCfg opts,
         emit (BabelProcessed result filePath jestCfg opts) w)
    | None => (RString result, w)
    end
  in
  (* allows hooks (useful for internal testing) *)
  match afterProcess hks with
  | Some hook =>
      let w := log Debug (Some filePath) "calling afterProcess hook" w in
      let args := (input, filePath, jestCfg, transformOptions) in
      let w := emit (HookCalled args result) w in
      match hook args result with
      | Some newResult => (newResult, this, w)
      | None => (result, this, w)
      end
  | None => (result, this, w)
  end.

Definition getCacheKey (this : TsJestTransformer) (fileContent filePath _jestConfigStr : string)
    (transformOptions : CacheKeyOptions) (w : World)
  : string * TsJestTransformer * World :=
  let '(configs, this, w) := configsFor this (cko_config transformOptions) w in
  let w := log Debug (Some filePath) ("computing cache key for " +:+ filePath) w in
  (* we do not instrument, ensure it is false all the time *)
  let instrument := default false (cko_instrument transformOptions) in
  let rootDir := default (rootDir configs) (cko_rootDir transformOptions) in
  (sha1 [default EmptyString (_transformCfgStr this); NUL;
         rootDir; NUL;
         "instrument:" +:+ (if instrument then "on" else "off"); NUL;
         fileContent; NUL;
         filePath],
   this, w).

(** *** Notions used to state the properties *)

(** Every object of [h] is in [h'], at the same location and unchanged;
    [h'] may hold more objects. *)
Definition heap_ext (h h' : Heap) : Prop :=
  h_cfg h `prefix_of` h_cfg h' ∧ h_obj h `prefix_of` h_obj h'.

Definition ref_ok (h : Heap) (v : cval) : Prop :=
  match v with
  | CData _ => True
  | CRef l => l < length (h_obj h)
  end.

(** [a] is an object of the store and so are the objects it references. *)
Definition valid_cfg (h : Heap) (a : loc) : Prop :=
  a < length (h_cfg h) ∧ map_Forall (λ _ v, ref_ok h v) (cfg_at h a).

Global Instance ref_ok_dec h v : Decision (ref_ok h v).
Proof. destruct v; simpl; apply _. Defined.

Global Instance valid_cfg_dec h a : Decision (valid_cfg h a).
Proof. unfold valid_cfg. apply _. Defined.

(** The events of a call that leads from [w] to [w']. *)
Definition events_since (w w' : World) : list Event :=
  drop (length (trace w)) (trace w').

Definition is_warning (e : Event) : bool :=
  match e with
  | Logged {| level := Warn |} => true
  | _ => false
  end.

Definition is_compile (e : Event) : bool :=
  match e with
  | Compiled _ _ => true
  | _ => false
  end.

Definition is_babel (e : Event) : bool :=
  match e with
  | BabelProcessed _ _ _ _ => true
  | _ => false
  end.

(** The Configuration Set with which [process] classifies the file: what
    line 105 resolves. *)
Definition process_configs (this : TsJestTransformer) (filePath : string) (jestCfg : loc)
    (w : World) : ConfigSet :=
  (configsFor this jestCfg (log Debug (Some filePath) ("processing " +:+ filePath) w)).1.1.

(** The five classification branches, as the specification lists them,
    first match first. *)
Inductive Branch := Stringify | Declaration | DisallowedJs | Compilable | Unknown.

Definition classify (configs : ConfigSet) (filePath : string) : Branch :=
  if shouldStringifyContent configs filePath then Stringify
  else if endsWith filePath DECLARATION_TYPE_EXT then Declaration
  else if JS_JSX_REGEX_test filePath
          && negb (truthy (json_get "allowJs" (options (parsedTsConfig configs))))
  then DisallowedJs
  else if JS_JSX_REGEX_test filePath || TS_TSX_REGEX_test filePath then Compilable
  else Unknown.

Definition branch_output (configs : ConfigSet) (input filePath : string) : string :=
  match classify configs filePath with
  | Stringify => "module.exports=" +:+ stringify (JStr input)
  | Declaration => EmptyString
  | DisallowedJs => input
  | Compilable => compile (tsCompiler configs) input filePath
  | Unknown => input
  end.

(** The result once the [afterProcess] hook, if any, has seen it. *)
Definition after_hook (configs : ConfigSet) (args : HookArgs) (result : TransformResult)
  : TransformResult :=
  match afterProcess (hooks configs) with
  | Some hook => default result (hook args result)
  | None => result
  end.

(** The secondary transform that applies to a file: none for a file
    whose content is stringified (line 108). *)
Definition secondary (configs : ConfigSet) (filePath : string) : option BabelJest :=
  if shouldStringifyContent configs filePath then None else babelJestTransformer configs.

Definition warning (filePath msg : string) : Event :=
  Logged {| level := Warn; fileName := Some filePath; message := interpolate msg filePath |}.

(** What the selected branch does besides producing its output. *)
Definition branch_events (configs : ConfigSet) (input filePath : string) : list Event :=
  match classify configs filePath with
  | Stringify | Declaration => []
  | DisallowedJs => [warning filePath GotJsFileButAllowJsFalse]
  | Compilable => [Compiled input filePath]
  | Unknown =>
      [warning filePath match secondary configs filePath with
                        | Some _ => GotUnknownFileTypeWithBabel
                        | None => GotUnknownFileTypeWithoutBabel
                        end]
  end.

(** The branch's output, piped through the secondary transform if one
    applies. *)
Definition piped (configs : ConfigSet) (input filePath : string) (jestCfg : loc)
    (transformOptions : option (gmap string json)) : TransformResult :=
  match secondary configs filePath with
  | Some bj =>
      bj_process bj (branch_output configs input filePath) filePath jestCfg
                 (without_instrument transformOptions)
  | None => RString (branch_output configs input filePath)
  end.

Definition secondary_events (configs : ConfigSet) (input filePath : string) (jestCfg : loc)
    (transformOptions : option (gmap string json)) : list Event :=
  match secondary configs filePath with
  | Some _ =>
      [Logged {| level := Debug; fileName := Some filePath;
                 message := "calling babel-jest processor" |};
       BabelProcessed (branch_output configs input filePath) filePath jestCfg
                      (without_instrument transformOptions)]
  | None => []
  end.

Definition hook_events (configs : ConfigSet) (args : HookArgs) (result : TransformResult)
  : list Event :=
  match afterProcess (hooks configs) with
  | Some _ =>
      [Logged {| level := Debug; fileName := Some (args.1.1.2);
                 message := "calling afterProcess hook" |};
       HookCalled args result]
  | None => []
  end.

(** [configsFor] called for each configuration of a list, in turn. *)
Fixpoint configsFor_each (this : TsJestTransformer) (cfgs : list loc) (w : World)
  : list ConfigSet * TsJestTransformer * World :=
  match cfgs with
  | [] => ([], this, w)
  | a :: rest =>
      let '(cs, this, w) := configsFor this a w in
      let '(css, this, w) := configsFor_each this rest w in
      (cs :: css, this, w)
  end.

(** The two lookups of [configsFor]. *)
Definition by_identity (a : loc) (c : list CachedConfigSet) : option (nat * CachedConfigSet) :=
  find_by (λ cs, Nat.eqb (value (jestConfig cs)) a) c.

Definition by_serialized (s : string) (c : list CachedConfigSet)
  : option (nat * CachedConfigSet) :=
  find_by (λ cs, String.eqb (serialized (jestConfig cs)) s) c.



(** Two configurations that differ only in the stripped fields: they are
    equal once [name], [cacheDirectory] and [globals] are left out, and
    their [globals] are equal once [ts-jest] is left out. *)
Definition differ_only_in_stripped (h1 : Heap) (a : loc) (h2 : Heap) (b : loc) : Prop :=
  delete "globals" (delete "cacheDirectory" (delete "name" (deref h1 <$> cfg_at h1 a)))
  = delete "globals" (delete "cacheDirectory" (delete "name" (deref h2 <$> cfg_at h2 b)))
  ∧ delete "ts-jest" (own_props h1 (cfg_get h1 a "globals"))
    = delete "ts-jest" (own_props h2 (cfg_get h2 b "globals")).

(** What the specification builds the Transform Signature from: the
    set's digest and secondary-transform configuration, the configuration
    with [name] and [cacheDirectory] cleared and [ts-jest] removed from its
    [globals], and the set's compiler options. *)
Definition signature_content (h : Heap) (configSet : ConfigSet) (a : loc)
  : gmap string json :=
  <["tsconfig" := JObj (map_to_list (<["raw" := raw (parsedTsConfig configSet)]>
                                     (<["options" := options (parsedTsConfig configSet)]>
                                      (∅ : gmap string json))))]>
  (<["cacheDirectory" := JUndefined]>
     (<["name" := JUndefined]>
        (<["globals" := JObj (map_to_list
                                (delete "ts-jest" (own_props h (cfg_get h a "globals"))))]>
           (deref h <$> cfg_at h a)))
   ∪ <["babel" := babelConfig configSet]>
     (<["digest" := JStr (tsJestDigest configSet)]> ∅)).

(** What [configsFor] logs: a record when it builds a new set. *)
Definition resolution_events (a : loc) (w : World) : list Event :=
  match by_identity a (_cachedConfigSets w),
        by_serialized (stringify (snapshot (heap w) a)) (_cachedConfigSets w) with
  | None, None =>
      [Logged {| level := Info; fileName := None;
                 message := "no matching config-set found, creating a new one" |}]
  | _, _ => []
  end.

(** The five things a cache key is computed from. *)
Record KeyInputs := {
  ki_signature : string;
  ki_rootDir : string;
  ki_instrument : bool;
  ki_fileContent : string;
  ki_filePath : string
}.

Definition key_inputs (this : TsJestTransformer) (fileContent filePath : string)
    (transformOptions : CacheKeyOptions) (w : World) : KeyInputs :=
  let '(configs, this, _) := configsFor this (cko_config transformOptions) w in
  {| ki_signature := default EmptyString (_transformCfgStr this);
     ki_rootDir := default (rootDir configs) (cko_rootDir transformOptions);
     ki_instrument := default false (cko_instrument transformOptions);
     ki_fileContent := fileContent;
     ki_filePath := filePath |}.

(** The key of the specification: the digest of the five inputs,
    separated by NUL. *)
Definition cache_key (k : KeyInputs) : string :=
  sha1 [ki_signature k; NUL; ki_rootDir k; NUL;
        "instrument:" +:+ (if ki_instrument k then "on" else "off"); NUL;
        ki_fileContent k; NUL; ki_filePath k].

(** The caller's configuration object [a] and its [globals] are in [h']
    what they were in [h]. *)
Definition untouched (h h' : Heap) (a : loc) : Prop :=
  cfg_at h' a = cfg_at h a ∧
  cfg_get h' a "name" = cfg_get h a "name" ∧
  cfg_get h' a "cacheDirectory" = cfg_get h a "cacheDirectory" ∧
  cfg_get h' a "globals" = cfg_get h a "globals" ∧
  own_props h' (cfg_get h' a "globals") = own_props h (cfg_get h a "globals") ∧
  own_props h' (cfg_get h' a "globals") !! "ts-jest"
    = own_props h (cfg_get h a "globals") !! "ts-jest" ∧
  snapshot h' a = snapshot h a.

Definition instrument_segment (b : bool) : string :=
  "instrument:" +:+ (if b then "on" else "off").

(** The text that is digested. *)
Definition key_text (k : KeyInputs) : string :=
  ki_signature k +:+ NUL +:+ ki_rootDir k +:+ NUL +:+
  instrument_segment (ki_instrument k) +:+ NUL +:+
  ki_fileContent k +:+ NUL +:+ ki_filePath k.

Inductive Dimension := Signature | RootDir | Instrument | FileContent | FilePath.

(** [k1] and [k2] are the same in every dimension but, possibly, [d]. *)
Definition agree_except (d : Dimension) (k1 k2 : KeyInputs) : Prop :=
  (d ≠ Signature → ki_signature k1 = ki_signature k2) ∧
  (d ≠ RootDir → ki_rootDir k1 = ki_rootDir k2) ∧
  (d ≠ Instrument → ki_instrument k1 = ki_instrument k2) ∧
  (d ≠ FileContent → ki_fileContent k1 = ki_fileContent k2) ∧
  (d ≠ FilePath → ki_filePath k1 = ki_filePath k2).

Fixpoint has_NUL (s : string) : bool :=
  match s with
  | EmptyString => false
  | String c rest => Ascii.eqb c "000"%char || has_NUL rest
  end.

Definition is_hex (c : ascii) : bool :=
  existsb (Ascii.eqb c) (list_ascii_of_string "0123456789abcdef").

Fixpoint all_hex (s : string) : bool :=
  match s with
  | EmptyString => true
  | String c rest => is_hex c && all_hex rest
  end.

(** The constructor, when it builds a set for [a], leaves the objects of
    the store as they are (it may allocate others): in [h0], and in every
    store that [h0] has been extended to. *)
Definition keeps_store (h0 : Heap) (a : loc) : Prop :=
  ∀ h, heap_ext h0 h → heap_ext h (ConfigSet_new h a).2.

(** The digest gives two different texts the same value. *)
Definition collision (x y : string) : Prop :=
  x ≠ y ∧ digest x = digest y.

(** *** Further notions *)

Definition is_hook (e : Event) : bool :=
  match e with
  | HookCalled _ _ => true
  | _ => false
  end.


(** [e'] is [e] but, possibly, for the object reference it stores. *)
Definition same_entry (e e' : CachedConfigSet) : Prop :=
  configSet e' = configSet e ∧
  serialized (jestConfig e') = serialized (jestConfig e) ∧
  transformerCfgStr e' = transformerCfgStr e.

(** Every entry of [c] is in [c'], where it was. *)
Definition cache_kept (c c' : list CachedConfigSet) : Prop :=
  length c ≤ length c' ∧
  ∀ i e, c !! i = Some e → ∃ e', c' !! i = Some e' ∧ same_entry e e'.

(** The world once the caller has made the store [h]. *)
Definition with_heap (w : World) (h : Heap) : World :=
  mkWorld h (_cachedConfigSets w) (configSetsBuilt w) (trace w).

(** The sets of the cache are sets that were built, each a different
    object. *)
Definition set_ids_inv (w : World) : Prop :=
  Forall (λ e, cs_id (configSet e) < configSetsBuilt w) (_cachedConfigSets w) ∧
  NoDup (cs_id ∘ configSet <$> _cachedConfigSets w).

(** *** The store is only extended *)

Lemma heap_ext_refl h : heap_ext h h.
Proof. split; reflexivity. Qed.

Lemma heap_ext_trans h1 h2 h3 : heap_ext h1 h2 → heap_ext h2 h3 → heap_ext h1 h3.
Proof. intros [? ?] [? ?]. split; etrans; eauto. Qed.

Lemma alloc_cfg_ext h o : heap_ext h (alloc_cfg h o).2.
Proof. split; simpl; [apply prefix_app_r|]; reflexivity. Qed.

Lemma alloc_obj_ext h o : heap_ext h (alloc_obj h o).2.
Proof. split; simpl; [|apply prefix_app_r]; reflexivity. Qed.

(** Writing to an object allocated after [h0] leaves [h0]'s objects alone. *)
Lemma set_cfg_ext h0 h l k v :
  heap_ext h0 h → length (h_cfg h0) ≤ l → heap_ext h0 (set_cfg h l k v).
Proof.
  intros [[ext Hc] Ho] Hl. split; simpl; [|done].
  rewrite Hc, alter_app_r_alt by done. by eexists.
Qed.

Lemma delete_obj_ext h0 h l k :
  heap_ext h0 h → length (h_obj h0) ≤ l → heap_ext h0 (delete_obj h l k).
Proof.
  intros [Hc [ext Ho]] Hl. split; simpl; [done|].
  rewrite Ho, alter_app_r_alt by done. by eexists.
Qed.

Lemma lookup_snoc {A} (l : list A) (x : A) : (l ++ [x]) !! length l = Some x.
Proof. by apply list_lookup_middle. Qed.

Lemma alter_snoc {A} (f : A → A) (l : list A) (x : A) :
  alter f (length l) (l ++ [x]) = l ++ [f x].
Proof. rewrite <- (Nat.add_0_r (length l)) at 1. by rewrite alter_app_r. Qed.

(** What lines 64-71 leave in the store: one more configuration object,
    the stripped copy, and one more nested object, its [globals]. *)
Lemma stripped_copy_eq h a :
  stripped_copy h a =
  (length (h_cfg h),
   mkHeap (h_cfg h ++
             [<["cacheDirectory" := CData JUndefined]>
                (<["name" := CData JUndefined]>
                   (<["globals" := CRef (length (h_obj h))]> (cfg_at h a)))])
          (h_obj h ++ [delete "ts-jest" (own_props h (cfg_get h a "globals"))])).
Proof.
  unfold stripped_copy, alloc_cfg, alloc_obj, set_cfg, delete_obj. cbn [h_cfg h_obj].
  rewrite !alter_snoc. f_equal. f_equal.
  do 3 f_equal. unfold own_props at 1, cfg_get, cfg_at, obj_at. cbn [h_cfg h_obj].
  rewrite lookup_snoc. reflexivity.
Qed.

Lemma stripped_copy_ext h a : heap_ext h (stripped_copy h a).2.
Proof. rewrite stripped_copy_eq. split; apply prefix_app_r; reflexivity. Qed.

Lemma transformSignature_ext h cs a : heap_ext h (transformSignature h cs a).2.
Proof.
  unfold transformSignature. rewrite stripped_copy_eq.
  unfold alloc_obj, alloc_cfg. cbn [h_cfg h_obj snd].
  split; cbn [h_cfg h_obj]; rewrite <- ?(assoc_L (++)); apply prefix_app_r; reflexivity.
Qed.

(** What [configsFor] does to the store: nothing, or what the constructor
    does and then the allocation of the copies. *)
Lemma configsFor_heap this a w :
  heap (configsFor this a w).2 = heap w ∨
  heap_ext (ConfigSet_new (heap w) a).2 (heap (configsFor this a w).2).
Proof.
  unfold configsFor.
  destruct (find_by _ _) as [[? ?]|]; [by left|].
  destruct (find_by _ _) as [[? ?]|]; [by left|].
  right. cbn [log emit heap configSetsBuilt].
  destruct (ConfigSet_new (heap w) a) as [fields h0]. cbn [snd].
  pose proof (transformSignature_ext h0
    {| cs_id := configSetsBuilt w; cs_fields := fields |} a) as H.
  destruct (transformSignature _ _ _) as [sig h]. exact H.
Qed.

Lemma configsFor_ext this a w :
  heap_ext (heap w) (ConfigSet_new (heap w) a).2 →
  heap_ext (heap w) (heap (configsFor this a w).2).
Proof.
  intros Hctor. destruct (configsFor_heap this a w) as [->|H]; [apply heap_ext_refl|].
  by eapply heap_ext_trans.
Qed.

Lemma keeps_store_here h a : keeps_store h a → heap_ext h (ConfigSet_new h a).2.
Proof. intros H. apply H, heap_ext_refl. Qed.


Lemma cfg_at_ext h h' a : heap_ext h h' → a < length (h_cfg h) → cfg_at h' a = cfg_at h a.
Proof. intros [Hc _] Ha. unfold cfg_at. by rewrite (prefix_lookup_lt _ _ _ Ha Hc). Qed.

Lemma obj_at_ext h h' l : heap_ext h h' → l < length (h_obj h) → obj_at h' l = obj_at h l.
Proof. intros [_ Ho] Hl. unfold obj_at. by rewrite (prefix_lookup_lt _ _ _ Hl Ho). Qed.


Lemma deref_ext h h' v : heap_ext h h' → ref_ok h v → deref h' v = deref h v.
Proof. intros He Hv. destruct v as [j|l]; [done|]. simpl. by rewrite (obj_at_ext h h'). Qed.

Lemma own_props_ext h h' v : heap_ext h h' → ref_ok h v → own_props h' v = own_props h v.
Proof. intros He Hv. destruct v as [j|l]; [done|]. simpl. by rewrite (obj_at_ext h h'). Qed.


Lemma cfg_get_ok h a k : valid_cfg h a → ref_ok h (cfg_get h a k).
Proof.
  intros [_ Hall]. unfold cfg_get. destruct (cfg_at h a !! k) as [v|] eqn:E; [|done].
  exact (Hall k v E).
Qed.

(** The content of a configuration is read the same after the store has
    been extended. *)
Lemma snapshot_ext h h' a : heap_ext h h' → valid_cfg h a → snapshot h' a = snapshot h a.
Proof.
  intros He [Ha Hall]. unfold snapshot. rewrite (cfg_at_ext h h') by done.
  do 2 f_equal. apply map_fmap_ext. intros k v Hk. apply deref_ext; [done|].
  exact (Hall k v Hk).
Qed.

(** *** [process], branch by branch *)

Lemma process_eq this input filePath jestCfg transformOptions w :
  let w0 := log Debug (Some filePath) ("processing " +:+ filePath) w in
  let configs := (configsFor this jestCfg w0).1.1 in
  let this1 := (configsFor this jestCfg w0).1.2 in
  let w1 := (configsFor this jestCfg w0).2 in
  let args := (input, filePath, jestCfg, transformOptions) in
  let result := piped configs input filePath jestCfg transformOptions in
  process this input filePath jestCfg transformOptions w =
  (after_hook configs args result, this1,
   mkWorld (heap w1) (_cachedConfigSets w1) (configSetsBuilt w1)
           (trace w1 ++ branch_events configs input filePath
                     ++ secondary_events configs input filePath jestCfg transformOptions
                     ++ hook_events configs args result)).
Proof.
  intros w0 configs this1 w1 args result.
  subst configs this1 w1 result args. unfold process. fold w0.
  destruct (configsFor this jestCfg w0) as [[configs this1] w1]. cbn [fst snd].
  unfold piped, secondary_events, branch_events, branch_output, secondary, classify,
    after_hook, hook_events, warning, log, emit.
  destruct w1 as [h c n tr]. cbn [heap _cachedConfigSets configSetsBuilt trace].
  destruct (shouldStringifyContent configs filePath);
    [|destruct (endsWith filePath DECLARATION_TYPE_EXT);
      [|destruct (JS_JSX_REGEX_test filePath);
        destruct (truthy (json_get "allowJs" (options (parsedTsConfig configs))));
        destruct (TS_TSX_REGEX_test filePath)]];
    cbn [negb andb orb];
    destruct (babelJestTransformer configs) as [bj|];
    destruct (afterProcess (hooks configs)) as [hook|];
    cbn [heap _cachedConfigSets configSetsBuilt trace fst snd];
    try destruct (hook _ _);
    cbn [default]; rewrite <- ?(assoc_L (++)); cbn [app]; rewrite ?app_nil_r;
    reflexivity.
Qed.

(** *** [configsFor], case by case *)

Lemma configsFor_identity this a w i e :
  by_identity a (_cachedConfigSets w) = Some (i, e) →
  configsFor this a w = (configSet e, {| _transformCfgStr := Some (transformerCfgStr e) |}, w).
Proof. unfold by_identity, configsFor. by intros ->. Qed.

Lemma configsFor_serialized this a w i e :
  by_identity a (_cachedConfigSets w) = None →
  by_serialized (stringify (snapshot (heap w) a)) (_cachedConfigSets w) = Some (i, e) →
  configsFor this a w =
  (configSet e, {| _transformCfgStr := Some (transformerCfgStr e) |},
   mkWorld (heap w) (<[i := with_value e a]> (_cachedConfigSets w))
           (configSetsBuilt w) (trace w)).
Proof. unfold by_identity, by_serialized, configsFor. by intros -> ->. Qed.

Lemma configsFor_new this a w :
  by_identity a (_cachedConfigSets w) = None →
  by_serialized (stringify (snapshot (heap w) a)) (_cachedConfigSets w) = None →
  let cs := {| cs_id := configSetsBuilt w;
               cs_fields := (ConfigSet_new (heap w) a).1 |} in
  let sig := (transformSignature (ConfigSet_new (heap w) a).2 cs a).1 in
  let h := (transformSignature (ConfigSet_new (heap w) a).2 cs a).2 in
  configsFor this a w =
  (cs, {| _transformCfgStr := Some sig |},
   mkWorld h
           (_cachedConfigSets w ++
            [{| configSet := cs;
                jestConfig := {| value := a; serialized := stringify (snapshot h a) |};
                transformerCfgStr := sig |}])
           (S (configSetsBuilt w))
           (trace w ++ [Logged {| level := Info; fileName := None;
                                  message := "no matching config-set found, creating a new one" |}])).
Proof.
  unfold by_identity, by_serialized, configsFor. intros -> ->.
  cbn [log emit heap _cachedConfigSets configSetsBuilt trace].
  destruct (ConfigSet_new (heap w) a) as [fields h0]. cbn [fst snd].
  by destruct (transformSignature _ _ _).
Qed.

(** A call that finds the configuration leaves the store as it is. *)
Lemma configsFor_hit_heap this a w :
  is_Some (by_identity a (_cachedConfigSets w)) ∨
  is_Some (by_serialized (stringify (snapshot (heap w) a)) (_cachedConfigSets w)) →
  heap (configsFor this a w).2 = heap w.
Proof.
  intros Hhit.
  destruct (by_identity a (_cachedConfigSets w)) as [[i e]|] eqn:Hid;
    [by rewrite (configsFor_identity this a w i e Hid)|].
  destruct (by_serialized (stringify (snapshot (heap w) a)) (_cachedConfigSets w))
    as [[i e]|] eqn:Hser; [by rewrite (configsFor_serialized this a w i e Hid Hser)|].
  destruct Hhit as [[? [=]]|[? [=]]].
Qed.

(** The three cases of [configsFor this a w], each with the call rewritten
    to its result. *)
Ltac configsFor_cases this a w i e Hid Hser :=
  destruct (by_identity a (_cachedConfigSets w)) as [[i e]|] eqn:Hid;
  [ rewrite (configsFor_identity this a w i e Hid)
  | destruct (by_serialized (stringify (snapshot (heap w) a)) (_cachedConfigSets w))
      as [[i e]|] eqn:Hser;
    [ rewrite (configsFor_serialized this a w i e Hid Hser)
    | rewrite (configsFor_new this a w Hid Hser) ] ].

Lemma by_identity_Some a c i e :
  by_identity a c = Some (i, e) ↔
  c !! i = Some e ∧ value (jestConfig e) = a ∧
  ∀ j y, c !! j = Some y → j < i → value (jestConfig y) ≠ a.
Proof.
  unfold by_identity, find_by. rewrite list_find_Some.
  rewrite Nat.eqb_eq. by setoid_rewrite Nat.eqb_eq.
Qed.

Lemma by_identity_None a c :
  by_identity a c = None ↔ ∀ j y, c !! j = Some y → value (jestConfig y) ≠ a.
Proof.
  unfold by_identity, find_by. rewrite list_find_None, Forall_lookup.
  by setoid_rewrite Nat.eqb_eq.
Qed.

Lemma by_serialized_Some s c i e :
  by_serialized s c = Some (i, e) ↔
  c !! i = Some e ∧ serialized (jestConfig e) = s ∧
  ∀ j y, c !! j = Some y → j < i → serialized (jestConfig y) ≠ s.
Proof.
  unfold by_serialized, find_by. rewrite list_find_Some.
  rewrite String.eqb_eq. by setoid_rewrite String.eqb_eq.
Qed.


(** After a call, the configuration is found by identity, and what is
    found is what the call returned. *)
Lemma configsFor_then_identity this a w :
  ∃ i e, by_identity a (_cachedConfigSets (configsFor this a w).2) = Some (i, e) ∧
         configSet e = (configsFor this a w).1.1 ∧
         (configsFor this a w).1.2 = {| _transformCfgStr := Some (transformerCfgStr e) |}.
Proof.
  configsFor_cases this a w i e Hid Hser.
  - eauto.
  - cbn [fst snd _cachedConfigSets].
    exists i, (with_value e a). split; [|done].
    apply by_serialized_Some in Hser as (Hi & _ & _).
    rewrite by_identity_None in Hid.
    apply by_identity_Some. split_and!.
    + apply list_lookup_insert_eq. eauto using lookup_lt_Some.
    + done.
    + intros j y Hj Hlt. rewrite list_lookup_insert_ne in Hj by lia. eauto.
  - cbn [fst snd _cachedConfigSets].
    eexists (length (_cachedConfigSets w)), _. split.
    { rewrite by_identity_None in Hid.
      apply by_identity_Some. split_and!.
      + apply lookup_snoc.
      + done.
      + intros j y Hj Hlt. rewrite lookup_app_l in Hj by done. eauto. }
    split; reflexivity.
Qed.




(** *** The cache invariant *)











(** *** What [getCacheKey] and [process] do to the world *)

Lemma getCacheKey_eq this fileContent filePath jestConfigStr transformOptions w :
  getCacheKey this fileContent filePath jestConfigStr transformOptions w =
  (cache_key (key_inputs this fileContent filePath transformOptions w),
   (configsFor this (cko_config transformOptions) w).1.2,
   log Debug (Some filePath) ("computing cache key for " +:+ filePath)
       (configsFor this (cko_config transformOptions) w).2).
Proof.
  unfold getCacheKey, key_inputs, cache_key.
  by destruct (configsFor this (cko_config transformOptions) w) as [[configs this1] w1].
Qed.

Lemma getCacheKey_ext this fileContent filePath jestConfigStr transformOptions w :
  heap_ext (heap w) (ConfigSet_new (heap w) (cko_config transformOptions)).2 →
  heap_ext (heap w)
           (heap (getCacheKey this fileContent filePath jestConfigStr transformOptions w).2).
Proof. rewrite getCacheKey_eq. apply configsFor_ext. Qed.

Lemma process_ext this input filePath jestCfg transformOptions w :
  heap_ext (heap w) (ConfigSet_new (heap w) jestCfg).2 →
  heap_ext (heap w) (heap (process this input filePath jestCfg transformOptions w).2).
Proof. rewrite process_eq. cbn [snd heap]. apply (configsFor_ext this jestCfg (log _ _ _ w)). Qed.

Lemma untouched_ext h h' a : heap_ext h h' → valid_cfg h a → untouched h h' a.
Proof.
  intros He Ha.
  assert (cfg_at h' a = cfg_at h a) as Hat by (apply cfg_at_ext; [done|apply Ha]).
  assert (∀ k, cfg_get h' a k = cfg_get h a k) as Hget.
  { intros k. unfold cfg_get. by rewrite Hat. }
  assert (own_props h' (cfg_get h' a "globals") = own_props h (cfg_get h a "globals")) as Hg.
  { rewrite Hget. apply own_props_ext; [done|]. by apply cfg_get_ok. }
  unfold untouched. rewrite Hg. split_and!; auto using snapshot_ext.
Qed.




(** *** The configuration-set cache *)

(** C10, as amended: the computation of the transform signature (lines
    64-80) leaves the caller's raw configuration object as it is, its
    [name], its [cacheDirectory], its [globals] reference and the [globals]
    object itself, [ts-jest] key included, since it writes to the shallow
    copies only, which it allocates after the existing objects.  A call of
    [configsFor] that finds the configuration in the cache leaves the
    whole store as it is; a call that builds a set leaves the store as
    [new ConfigSet(jestConfig)], which is given the object itself, leaves
    it, but for the copies.  So when the constructor leaves the objects of
    the store as they are, the raw configuration is after [configsFor],
    [process] and [getCacheKey] what it was before. *)
Theorem raw_configuration_not_mutated (this : TsJestTransformer) (a : loc) (w : World)
    (Ha : valid_cfg (heap w) a) :
  let built := (ConfigSet_new (heap w) a).2 in
  let found :=
    is_Some (by_identity a (_cachedConfigSets w)) ∨
    is_Some (by_serialized (stringify (snapshot (heap w) a)) (_cachedConfigSets w)) in
  (∀ h cs, valid_cfg h a →
     untouched h (stripped_copy h a).2 a ∧
     untouched h (transformSignature h cs a).2 a ∧
     heap_ext h (transformSignature h cs a).2) ∧
  (found → heap (configsFor this a w).2 = heap w) ∧
  (¬ found →
     heap_ext built (heap (configsFor this a w).2) ∧
     (valid_cfg built a → untouched built (heap (configsFor this a w).2) a)) ∧
  (heap_ext (heap w) built →
     untouched (heap w) (heap (configsFor this a w).2) a ∧
     heap_ext (heap w) (heap (configsFor this a w).2) ∧
     (∀ input filePath transformOptions,
        untouched (heap w) (heap (process this input filePath a transformOptions w).2) a) ∧
     (∀ fileContent filePath jestConfigStr instrument rootDir,
        untouched (heap w)
          (heap (getCacheKey this fileContent filePath jestConfigStr
                   {| cko_config := a; cko_instrument := instrument; cko_rootDir := rootDir |}
                   w).2) a)).
Proof.
  intros built found. subst built found. split_and!.
  - intros h cs Hh. split_and!.
    + apply untouched_ext; [apply stripped_copy_ext|done].
    + apply untouched_ext; [apply transformSignature_ext|done].
    + apply transformSignature_ext.
  - apply configsFor_hit_heap.
  - intros Hmiss.
    assert (heap_ext (ConfigSet_new (heap w) a).2 (heap (configsFor this a w).2)) as He.
    { destruct (by_identity a (_cachedConfigSets w)) as [[i e]|] eqn:Hid;
        [destruct Hmiss; eauto|].
      destruct (by_serialized (stringify (snapshot (heap w) a)) (_cachedConfigSets w))
        as [[i e]|] eqn:Hser; [destruct Hmiss; eauto|].
      rewrite (configsFor_new this a w Hid Hser). cbn [snd heap].
      apply transformSignature_ext. }
    split; [exact He|]. intros Hv. by apply untouched_ext.
  - intros Hctor. split_and!.
    + apply untouched_ext; [by apply configsFor_ext|done].
    + by apply configsFor_ext.
    + intros. apply untouched_ext; [by apply process_ext|done].
    + intros. apply untouched_ext; [by apply getCacheKey_ext|done].
Qed.



(** *** The transform signature *)

Lemma cfg_at_snoc c o x : cfg_at (mkHeap (c ++ [x]) o) (length c) = x.
Proof. unfold cfg_at. cbn [h_cfg]. by rewrite lookup_snoc. Qed.

Lemma obj_at_snoc c o x : obj_at (mkHeap c (o ++ [x])) (length o) = x.
Proof. unfold obj_at. cbn [h_obj]. by rewrite lookup_snoc. Qed.

Lemma obj_at_snoc2 c o x y : obj_at (mkHeap c ((o ++ [x]) ++ [y])) (length o) = x.
Proof.
  unfold obj_at. cbn [h_obj].
  rewrite lookup_app_l by (rewrite length_app; simpl; lia). by rewrite lookup_snoc.
Qed.

Lemma transformSignature_eq h cs a :
  valid_cfg h a →
  (transformSignature h cs a).1 = stringify (JObj (map_to_list (signature_content h cs a))).
Proof.
  intros Ha. unfold transformSignature. rewrite stripped_copy_eq.
  unfold alloc_obj, alloc_cfg. cbn [h_cfg h_obj fst snd].
  f_equal. unfold signature_content, snapshot.
  set (g := delete "ts-jest" (own_props h (cfg_get h a "globals"))).
  set (t := <["raw" := raw (parsedTsConfig cs)]>
            (<["options" := options (parsedTsConfig cs)]> (∅ : gmap string json))).
  rewrite !cfg_at_snoc. do 2 f_equal.
  rewrite fmap_insert, map_fmap_union, !fmap_insert, fmap_empty.
  cbn [deref]. rewrite obj_at_snoc, obj_at_snoc2.
  do 5 f_equal.
  apply map_fmap_ext. intros k v Hk. apply deref_ext.
  - split; cbn [h_cfg h_obj]; rewrite <- (assoc_L (++)); apply prefix_app_r; reflexivity.
  - destruct Ha as [_ Hall]. exact (Hall k v Hk).
Qed.

Lemma stripped_maps_eq (m1 m2 : gmap string json) (g : json) :
  delete "globals" (delete "cacheDirectory" (delete "name" m1))
  = delete "globals" (delete "cacheDirectory" (delete "name" m2)) →
  <["cacheDirectory" := JUndefined]> (<["name" := JUndefined]> (<["globals" := g]> m1))
  = <["cacheDirectory" := JUndefined]> (<["name" := JUndefined]> (<["globals" := g]> m2)).
Proof.
  intros H. apply map_eq. intros k.
  apply (f_equal (λ m, m !! k)) in H.
  rewrite !lookup_insert. rewrite !lookup_delete in H.
  repeat case_decide; congruence.
Qed.

(** C5: two raw configurations that differ only in the stripped fields
    ([name], [cacheDirectory], and the [ts-jest] key of [globals]), with
    Configuration Sets that agree on what enters the signature (digest,
    secondary-transform configuration, compiler options), have the same
    Transform Signature: lines 64-80 compute the same string for both, and
    so [configsFor] leaves the same [_transformCfgStr] when it builds a set
    for the one and for the other ([h1] and [h2] being the stores in which
    the signature is computed, that is, as the constructor leaves them). *)
Theorem signature_ignores_stripped_fields
    (h1 h2 : Heap) (cs1 cs2 : ConfigSet) (a b : loc)
    (Ha : valid_cfg h1 a) (Hb : valid_cfg h2 b)
    (Hdiff : differ_only_in_stripped h1 a h2 b)
    (Hdigest : tsJestDigest cs1 = tsJestDigest cs2)
    (Hbabel : babelConfig cs1 = babelConfig cs2)
    (Htsconfig : parsedTsConfig cs1 = parsedTsConfig cs2) :
  (transformSignature h1 cs1 a).1 = (transformSignature h2 cs2 b).1 ∧
  ∀ this1 this2 w1 w2,
    (ConfigSet_new (heap w1) a).2 = h1 → (ConfigSet_new (heap w2) b).2 = h2 →
    cs_fields cs1 = (ConfigSet_new (heap w1) a).1 →
    cs_fields cs2 = (ConfigSet_new (heap w2) b).1 →
    by_identity a (_cachedConfigSets w1) = None →
    by_serialized (stringify (snapshot (heap w1) a)) (_cachedConfigSets w1) = None →
    by_identity b (_cachedConfigSets w2) = None →
    by_serialized (stringify (snapshot (heap w2) b)) (_cachedConfigSets w2) = None →
    (configsFor this1 a w1).1.2 = (configsFor this2 b w2).1.2.
Proof.
  assert (∀ c1 c2, cs_fields c1 = cs_fields cs1 → cs_fields c2 = cs_fields cs2 →
                   (transformSignature h1 c1 a).1 = (transformSignature h2 c2 b).1) as Hsig.
  { intros c1 c2 H1 H2. rewrite !transformSignature_eq by done. do 3 f_equal.
    destruct Hdiff as [Hcfg Hglobals].
    unfold signature_content, tsJestDigest, babelConfig, parsedTsConfig in *.
    rewrite H1, H2, Hdigest, Hbabel, Htsconfig, Hglobals.
    f_equal. f_equal. by apply stripped_maps_eq. }
  split; [by apply Hsig|].
  intros this1 this2 w1 w2 Hh1 Hh2 Hf1 Hf2 Hid1 Hser1 Hid2 Hser2.
  rewrite (configsFor_new _ _ _ Hid1 Hser1), (configsFor_new _ _ _ Hid2 Hser2).
  cbn [fst snd]. rewrite Hh1, Hh2. do 2 f_equal. by apply Hsig.
Qed.

(** *** The events of a call *)

Lemma configsFor_trace this a w :
  trace (configsFor this a w).2 = trace w ++ resolution_events a w.
Proof.
  unfold resolution_events.
  configsFor_cases this a w i e Hid Hser; simpl; by rewrite ?app_nil_r.
Qed.

Lemma process_events this input filePath jestCfg transformOptions w :
  let w0 := log Debug (Some filePath) ("processing " +:+ filePath) w in
  let configs := process_configs this filePath jestCfg w in
  let args := (input, filePath, jestCfg, transformOptions) in
  events_since w (process this input filePath jestCfg transformOptions w).2 =
  [Logged {| level := Debug; fileName := Some filePath;
             message := "processing " +:+ filePath |}]
  ++ resolution_events jestCfg w0
  ++ branch_events configs input filePath
  ++ secondary_events configs input filePath jestCfg transformOptions
  ++ hook_events configs args (piped configs input filePath jestCfg transformOptions).
Proof.
  intros w0 configs args. subst configs args. unfold events_since, process_configs.
  rewrite process_eq. cbn [snd trace]. fold w0. rewrite configsFor_trace.
  subst w0. cbn [log emit trace]. rewrite <- !(assoc_L (++)).
  by rewrite drop_app_length.
Qed.

Lemma process_result this input filePath jestCfg transformOptions w :
  let configs := process_configs this filePath jestCfg w in
  (process this input filePath jestCfg transformOptions w).1.1 =
  after_hook configs (input, filePath, jestCfg, transformOptions)
             (piped configs input filePath jestCfg transformOptions).
Proof. intros configs. by rewrite process_eq. Qed.

(** *** The cache key *)

Lemma append_nil_l (x : string) : EmptyString +:+ x = x.
Proof. reflexivity. Qed.

Lemma append_cons (c : ascii) (x y : string) : String c x +:+ y = String c (x +:+ y).
Proof. reflexivity. Qed.

Lemma append_length (x y : string) :
  String.length (x +:+ y) = String.length x + String.length y.
Proof. induction x as [|c x IH]; simpl; [done|]. by rewrite IH. Qed.

Lemma append_inj_l (a x y : string) : a +:+ x = a +:+ y → x = y.
Proof. induction a as [|c a IH]; simpl; [done|]. intros [= H]. auto. Qed.

Lemma append_inj_r (b x : string) : ∀ y, x +:+ b = y +:+ b → x = y.
Proof.
  induction x as [|c x IH]; intros [|d y] H; simpl in H.
  - done.
  - apply (f_equal String.length) in H. simpl in H. rewrite ?append_length in H.
    simpl in H. lia.
  - apply (f_equal String.length) in H. simpl in H. rewrite ?append_length in H.
    simpl in H. lia.
  - injection H as -> H. f_equal. auto.
Qed.

Lemma has_NUL_append (x y : string) : has_NUL (x +:+ NUL +:+ y) = true.
Proof. induction x as [|c x IH]; simpl; [done|]. rewrite IH. apply orb_true_r. Qed.

(** A field without NUL ends at the first NUL. *)
Lemma split_at_first_NUL (x : string) : ∀ y r1 r2,
  has_NUL x = false → has_NUL y = false →
  x +:+ NUL +:+ r1 = y +:+ NUL +:+ r2 → x = y ∧ r1 = r2.
Proof.
  induction x as [|c x IH]; intros [|d y] r1 r2 Hx Hy H;
    unfold NUL in H; rewrite ?append_cons, ?append_nil_l in H; cbn [has_NUL] in Hx, Hy.
  - by injection H.
  - injection H as <- _. done.
  - injection H as -> _. done.
  - injection H as -> H.
    apply orb_false_iff in Hx as [_ Hx]. apply orb_false_iff in Hy as [_ Hy].
    destruct (IH y r1 r2 Hx Hy H) as [-> ->]. done.
Qed.

(** A last field without NUL starts after the last NUL. *)
Lemma split_at_last_NUL (x : string) : ∀ y r1 r2,
  has_NUL r1 = false → has_NUL r2 = false →
  x +:+ NUL +:+ r1 = y +:+ NUL +:+ r2 → x = y ∧ r1 = r2.
Proof.
  induction x as [|c x IH]; intros [|d y] r1 r2 H1 H2 H;
    unfold NUL in H; rewrite ?append_cons, ?append_nil_l in H.
  - by injection H.
  - injection H as _ H. rewrite H in H1.
    pose proof (has_NUL_append y r2) as Hc. unfold NUL in Hc.
    rewrite ?append_cons, ?append_nil_l in Hc. congruence.
  - injection H as _ H. rewrite <- H in H2.
    pose proof (has_NUL_append x r1) as Hc. unfold NUL in Hc.
    rewrite ?append_cons, ?append_nil_l in Hc. congruence.
  - injection H as -> H. destruct (IH y r1 r2 H1 H2 H) as [-> ->]. done.
Qed.

Lemma instrument_segment_inj b1 b2 r1 r2 :
  instrument_segment b1 +:+ NUL +:+ r1 = instrument_segment b2 +:+ NUL +:+ r2 →
  b1 = b2 ∧ r1 = r2.
Proof. destruct b1, b2; simpl; intros [= H]; done. Qed.

Lemma cache_key_text k : cache_key k = digest (key_text k).
Proof.
  unfold cache_key, sha1, key_text, instrument_segment. reflexivity.
Qed.

Lemma key_text_one_dimension d k1 k2 :
  agree_except d k1 k2 → key_text k1 = key_text k2 → k1 = k2.
Proof.
  destruct k1 as [s1 r1 i1 c1 p1], k2 as [s2 r2 i2 c2 p2].
  unfold agree_except, key_text. cbn [ki_signature ki_rootDir ki_instrument ki_fileContent ki_filePath].
  intros (Hs & Hr & Hi & Hc & Hp) H.
  destruct d.
  - rewrite Hr, Hi, Hc, Hp in * by done. apply append_inj_r in H. by subst.
  - rewrite Hs, Hi, Hc, Hp in * by done. do 2 apply append_inj_l in H.
    apply append_inj_r in H. by subst.
  - rewrite Hs, Hr, Hc, Hp in * by done. do 4 apply append_inj_l in H.
    apply instrument_segment_inj in H as [-> _]. done.
  - rewrite Hs, Hr, Hi, Hp in * by done. do 6 apply append_inj_l in H.
    apply append_inj_r in H. by subst.
  - rewrite Hs, Hr, Hi, Hc in * by done. do 8 apply append_inj_l in H. by subst.
Qed.

Lemma key_text_inj k1 k2 :
  has_NUL (ki_signature k1) = false → has_NUL (ki_rootDir k1) = false →
  has_NUL (ki_filePath k1) = false →
  has_NUL (ki_signature k2) = false → has_NUL (ki_rootDir k2) = false →
  has_NUL (ki_filePath k2) = false →
  key_text k1 = key_text k2 → k1 = k2.
Proof.
  destruct k1 as [s1 r1 i1 c1 p1], k2 as [s2 r2 i2 c2 p2].
  unfold key_text. cbn [ki_signature ki_rootDir ki_instrument ki_fileContent ki_filePath].
  intros Hs1 Hr1 Hp1 Hs2 Hr2 Hp2 H.
  apply split_at_first_NUL in H as [-> H]; [|done..].
  apply split_at_first_NUL in H as [-> H]; [|done..].
  apply instrument_segment_inj in H as [-> H].
  apply split_at_last_NUL in H as [-> ->]; [|done..].
  done.
Qed.

(** C2, as amended: two invocations of [getCacheKey] with the same five
    inputs (transform signature, root directory, instrumentation flag,
    file content, file path) return the same key, and a repeated call
    returns the key again, whatever the digest.  The key is the digest of
    the text that joins the five inputs with NUL, and invocations that
    differ in one of the five inputs only digest different texts: they
    return different keys unless the digest collides on these two texts.
    When signature, root directory and file path hold no NUL character,
    invocations return the same key only for the same five inputs, or by a
    collision of the digest.  With a collision-free digest the keys differ
    in the first case, and are the same exactly for the same inputs in
    the second. *)
Theorem cache_key_discriminates
    (this1 : TsJestTransformer) (c1 p1 s1 : string) (o1 : CacheKeyOptions) (w1 : World)
    (this2 : TsJestTransformer) (c2 p2 s2 : string) (o2 : CacheKeyOptions) (w2 : World) :
  let r1 := getCacheKey this1 c1 p1 s1 o1 w1 in
  let r2 := getCacheKey this2 c2 p2 s2 o2 w2 in
  let i1 := key_inputs this1 c1 p1 o1 w1 in
  let i2 := key_inputs this2 c2 p2 o2 w2 in
  let NUL_free :=
    has_NUL (ki_signature i1) = false ∧ has_NUL (ki_rootDir i1) = false ∧
    has_NUL (ki_filePath i1) = false ∧
    has_NUL (ki_signature i2) = false ∧ has_NUL (ki_rootDir i2) = false ∧
    has_NUL (ki_filePath i2) = false in
  (i1 = i2 → r1.1.1 = r2.1.1) ∧
  (getCacheKey r1.1.2 c1 p1 s1 o1 r1.2).1.1 = r1.1.1 ∧
  (r1.1.1 = digest (key_text i1) ∧ r2.1.1 = digest (key_text i2)) ∧
  (∀ d, agree_except d i1 i2 → i1 ≠ i2 →
     key_text i1 ≠ key_text i2 ∧
     (r1.1.1 = r2.1.1 → collision (key_text i1) (key_text i2))) ∧
  (NUL_free →
     (key_text i1 = key_text i2 → i1 = i2) ∧
     (r1.1.1 = r2.1.1 → i1 = i2 ∨ collision (key_text i1) (key_text i2))) ∧
  ((∀ x y, digest x = digest y → x = y) →
     (∀ d, agree_except d i1 i2 → i1 ≠ i2 → r1.1.1 ≠ r2.1.1) ∧
     (NUL_free → (r1.1.1 = r2.1.1 ↔ i1 = i2))).
Proof.
  intros r1 r2 i1 i2 NUL_free. subst r1 r2 i1 i2 NUL_free.
  rewrite !getCacheKey_eq. cbn [fst snd].
  split_and!.
  - by intros ->.
  - f_equal. unfold key_inputs.
    destruct (configsFor_then_identity this1 (cko_config o1) w1) as (i & e & Hid & Hcs & Hthis).
    rewrite (configsFor_identity _ _ (log _ _ _ _) i e Hid).
    destruct (configsFor this1 (cko_config o1) w1) as [[cs t] w].
    cbn [fst snd] in *. by subst.
  - apply cache_key_text.
  - apply cache_key_text.
  - intros d Hd Hne.
    assert (key_text (key_inputs this1 c1 p1 o1 w1) ≠ key_text (key_inputs this2 c2 p2 o2 w2))
      as Htext by eauto using key_text_one_dimension.
    split; [exact Htext|]. rewrite !cache_key_text. by split.
  - intros (? & ? & ? & ? & ? & ?). split; [by apply key_text_inj|].
    rewrite !cache_key_text. intros Hk.
    destruct (decide (key_text (key_inputs this1 c1 p1 o1 w1)
                      = key_text (key_inputs this2 c2 p2 o2 w2))) as [Heq|Hne].
    + left. by apply key_text_inj.
    + right. by split.
  - intros digest_inj. split.
    + intros d Hd Hne Hk. apply Hne. rewrite !cache_key_text in Hk.
      eauto using key_text_one_dimension.
    + intros (? & ? & ? & ? & ? & ?). split; [|by intros ->].
      rewrite !cache_key_text. intros Hk. apply key_text_inj; auto.
Qed.

Lemma cache_key_has_digest_format
    (digest_hex : ∀ s, String.length (digest s) = 40 ∧ all_hex (digest s) = true)
    (this : TsJestTransformer) (fileContent filePath jestConfigStr : string)
    (transformOptions : CacheKeyOptions) (w : World) :
  let key := (getCacheKey this fileContent filePath jestConfigStr transformOptions w).1.1 in
  String.length key = 40 ∧ all_hex key = true.
Proof. intros key. subst key. rewrite getCacheKey_eq. cbn [fst]. apply digest_hex. Qed.

(** *** The transform engine *)

Lemma process_compile_events this input filePath jestCfg transformOptions w :
  let configs := process_configs this filePath jestCfg w in
  List.filter is_compile
    (events_since w (process this input filePath jestCfg transformOptions w).2) =
  match classify configs filePath with
  | Compilable => [Compiled input filePath]
  | _ => []
  end.
Proof.
  intros configs. subst configs. rewrite process_events. rewrite !List.filter_app.
  unfold resolution_events, branch_events, secondary_events, hook_events, warning.
  repeat case_match; reflexivity.
Qed.

Lemma process_babel_events this input filePath jestCfg transformOptions w :
  let configs := process_configs this filePath jestCfg w in
  List.filter is_babel
    (events_since w (process this input filePath jestCfg transformOptions w).2) =
  match secondary configs filePath with
  | Some _ =>
      [BabelProcessed (branch_output configs input filePath) filePath jestCfg
                      (without_instrument transformOptions)]
  | None => []
  end.
Proof.
  intros configs. subst configs. rewrite process_events. rewrite !List.filter_app.
  unfold resolution_events, branch_events, secondary_events, hook_events, warning.
  repeat case_match; reflexivity.
Qed.

Lemma process_warning_events this input filePath jestCfg transformOptions w :
  let configs := process_configs this filePath jestCfg w in
  List.filter is_warning
    (events_since w (process this input filePath jestCfg transformOptions w).2) =
  match classify configs filePath with
  | DisallowedJs => [warning filePath GotJsFileButAllowJsFalse]
  | Unknown =>
      [warning filePath match secondary configs filePath with
                        | Some _ => GotUnknownFileTypeWithBabel
                        | None => GotUnknownFileTypeWithoutBabel
                        end]
  | _ => []
  end.
Proof.
  intros configs. subst configs. rewrite process_events. rewrite !List.filter_app.
  unfold resolution_events, branch_events, secondary_events, hook_events, warning.
  repeat case_match; reflexivity.
Qed.

Lemma after_hook_absent configs args result :
  (∀ hook, afterProcess (hooks configs) = Some hook → hook args result = None) →
  after_hook configs args result = result.
Proof.
  intros H. unfold after_hook. destruct (afterProcess (hooks configs)) as [hook|]; [|done].
  by rewrite (H hook).
Qed.

(** C3, as amended: the instrument option handed to the secondary
    transform is always [false]; when a secondary transform is configured
    and the file is not one whose content is stringified, the output of
    the selected branch (declaration-only, disallowed JS, compilable,
    unknown extension) is piped through it exactly once, as
    [process(output, filePath, rawConfig, { ...transformOptions, instrument: false })],
    and what it returns is the result handed to the [afterProcess] hook;
    the output of the stringify branch is never piped, whether or not a
    secondary transform is configured. *)
Theorem secondary_transform_piping
    (this : TsJestTransformer) (input filePath : string) (jestCfg : loc)
    (transformOptions : option (gmap string json)) (w : World) :
  let configs := process_configs this filePath jestCfg w in
  let r := process this input filePath jestCfg transformOptions w in
  let output := branch_output configs input filePath in
  let opts := without_instrument transformOptions in
  let args := (input, filePath, jestCfg, transformOptions) in
  opts !! "instrument" = Some (JBool false) ∧
  (∀ k, k ≠ "instrument" → opts !! k = default ∅ transformOptions !! k) ∧
  (∀ bj, babelJestTransformer configs = Some bj →
         shouldStringifyContent configs filePath = false →
     classify configs filePath ≠ Stringify ∧
     List.filter is_babel (events_since w r.2) = [BabelProcessed output filePath jestCfg opts] ∧
     r.1.1 = after_hook configs args (bj_process bj output filePath jestCfg opts)) ∧
  (shouldStringifyContent configs filePath = true →
     classify configs filePath = Stringify ∧
     List.filter is_babel (events_since w r.2) = [] ∧
     r.1.1 = after_hook configs args (RString output)).
Proof.
  intros configs r output opts args. subst r output opts args.
  rewrite process_babel_events, process_result. fold configs.
  unfold piped, secondary, without_instrument, classify.
  split_and!.
  - apply lookup_insert_eq.
  - intros k Hk. by rewrite lookup_insert_ne.
  - intros bj -> ->. split_and!; [|done..]. repeat case_match; done.
  - by intros ->.
Qed.

(** C7, as amended: a file whose path ends with the declaration
    extension never reaches the compiler, whatever its content; unless its
    path also matches the stringify pattern, the declaration-only branch is
    selected, whose output is the empty string, and [process] returns the
    empty string when no secondary transform is configured and the
    [afterProcess] hook, if any, leaves the result as it is. *)
Theorem declaration_file_not_compiled
    (this : TsJestTransformer) (input filePath : string) (jestCfg : loc)
    (transformOptions : option (gmap string json)) (w : World)
    (Hdecl : endsWith filePath DECLARATION_TYPE_EXT = true) :
  let configs := process_configs this filePath jestCfg w in
  let r := process this input filePath jestCfg transformOptions w in
  let args := (input, filePath, jestCfg, transformOptions) in
  List.filter is_compile (events_since w r.2) = [] ∧
  (shouldStringifyContent configs filePath = false →
     classify configs filePath = Declaration ∧
     branch_output configs input filePath = EmptyString ∧
     (babelJestTransformer configs = None →
      (∀ hook, afterProcess (hooks configs) = Some hook →
               hook args (RString EmptyString) = None) →
      r.1.1 = RString EmptyString)).
Proof.
  intros configs r args. subst r args.
  rewrite process_compile_events, process_result. fold configs.
  unfold piped, secondary, branch_output, classify. rewrite Hdecl.
  split.
  - by destruct (shouldStringifyContent configs filePath).
  - intros ->. split_and!; [done..|]. intros -> Hhook.
    by apply after_hook_absent.
Qed.

Lemma process_stringify this input filePath jestCfg transformOptions w :
  let configs := process_configs this filePath jestCfg w in
  let r := process this input filePath jestCfg transformOptions w in
  let args := (input, filePath, jestCfg, transformOptions) in
  let module := RString ("module.exports=" +:+ stringify (JStr input)) in
  shouldStringifyContent configs filePath = true →
  classify configs filePath = Stringify ∧
  List.filter is_compile (events_since w r.2) = [] ∧
  List.filter is_babel (events_since w r.2) = [] ∧
  r.1.1 = after_hook configs args module ∧
  ((∀ hook, afterProcess (hooks configs) = Some hook → hook args module = None) →
   r.1.1 = module).
Proof.
  intros configs r args module Hs. subst r args module.
  rewrite process_compile_events, process_babel_events, process_result. fold configs.
  unfold piped, secondary, branch_output, classify. rewrite Hs.
  split_and!; [done..|]. apply after_hook_absent.
Qed.

(** C9, as amended: for a file whose path matches the JS/JSX pattern
    while [allowJs] is unset or false, and which is neither stringified
    nor a declaration file, the disallowed-JS branch is selected: its
    output is the original content, exactly one warning is logged, which
    names the file and gives the two remediations, and the compiler is not
    called; [process] returns the content unchanged when no secondary
    transform is configured and the [afterProcess] hook, if any, leaves
    the result as it is, and otherwise what the secondary transform and
    the hook make of it. *)
Theorem disallowed_js_passes_through
    (this : TsJestTransformer) (input filePath : string) (jestCfg : loc)
    (transformOptions : option (gmap string json)) (w : World) :
  let configs := process_configs this filePath jestCfg w in
  let r := process this input filePath jestCfg transformOptions w in
  let args := (input, filePath, jestCfg, transformOptions) in
  JS_JSX_REGEX_test filePath = true →
  truthy (json_get "allowJs" (options (parsedTsConfig configs))) = false →
  shouldStringifyContent configs filePath = false →
  endsWith filePath DECLARATION_TYPE_EXT = false →
  classify configs filePath = DisallowedJs ∧
  branch_output configs input filePath = input ∧
  List.filter is_warning (events_since w r.2) =
    [Logged {| level := Warn; fileName := Some filePath;
               message := interpolate GotJsFileButAllowJsFalse filePath |}] ∧
  List.filter is_compile (events_since w r.2) = [] ∧
  r.1.1 = after_hook configs args
            match babelJestTransformer configs with
            | Some bj => bj_process bj input filePath jestCfg
                                    (without_instrument transformOptions)
            | None => RString input
            end ∧
  (babelJestTransformer configs = None →
   (∀ hook, afterProcess (hooks configs) = Some hook → hook args (RString input) = None) →
   r.1.1 = RString input).
Proof.
  intros configs r args Hjs Hallow Hs Hd. subst r args.
  rewrite process_compile_events, process_warning_events, process_result. fold configs.
  unfold piped, secondary, branch_output, classify, warning.
  rewrite Hjs, Hallow, Hs, Hd. cbn [negb andb].
  split_and!; [done..|]. intros -> Hhook. by apply after_hook_absent.
Qed.

(** The warning of the disallowed-JS branch: the file, then the two
    remediations. *)
Lemma GotJsFileButAllowJsFalse_text path :
  interpolate GotJsFileButAllowJsFalse path =
  "Got a `.js` file to compile while `allowJs` option is not set to `true` (file: "
  +:+ path +:+ "). To fix this:
  - if you want TypeScript to process JS files, set `allowJs` to `true` in your TypeScript config (usually tsconfig.json)
  - if you do not want TypeScript to process your `.js` files, in your Jest config change the `transform` key which value is `ts-jest` so that it does not match `.js` files anymore".
Proof. reflexivity. Qed.

(** *** More on the transform engine *)

Lemma process_hook_events this input filePath jestCfg transformOptions w :
  let configs := process_configs this filePath jestCfg w in
  let args := (input, filePath, jestCfg, transformOptions) in
  List.filter is_hook
    (events_since w (process this input filePath jestCfg transformOptions w).2) =
  match afterProcess (hooks configs) with
  | Some _ => [HookCalled args (piped configs input filePath jestCfg transformOptions)]
  | None => []
  end.
Proof.
  intros configs args. subst configs args. rewrite process_events. rewrite !List.filter_app.
  unfold resolution_events, branch_events, secondary_events, hook_events, warning.
  repeat case_match; reflexivity.
Qed.

(** X1: a file whose path matches none of the patterns (not the stringify
    pattern, not the declaration extension, neither JS/JSX nor TS/TSX) takes
    the last branch (lines 127-136): its output is the content, the compiler
    is not called, and exactly one warning is logged, which names the file
    and whose text depends on whether a secondary transform is configured;
    [process] returns the content unchanged when none is configured and no
    hook replaces it, and what the secondary transform makes of it
    otherwise. *)
Theorem unknown_file_type_passes_through
    (this : TsJestTransformer) (input filePath : string) (jestCfg : loc)
    (transformOptions : option (gmap string json)) (w : World) :
  let configs := process_configs this filePath jestCfg w in
  let r := process this input filePath jestCfg transformOptions w in
  let args := (input, filePath, jestCfg, transformOptions) in
  shouldStringifyContent configs filePath = false →
  endsWith filePath DECLARATION_TYPE_EXT = false →
  JS_JSX_REGEX_test filePath = false →
  TS_TSX_REGEX_test filePath = false →
  List.filter is_warning (events_since w r.2) =
    [Logged {| level := Warn; fileName := Some filePath;
               message := interpolate match babelJestTransformer configs with
                                      | Some _ => GotUnknownFileTypeWithBabel
                                      | None => GotUnknownFileTypeWithoutBabel
                                      end filePath |}] ∧
  List.filter is_compile (events_since w r.2) = [] ∧
  r.1.1 = after_hook configs args
            match babelJestTransformer configs with
            | Some bj => bj_process bj input filePath jestCfg
                                    (without_instrument transformOptions)
            | None => RString input
            end ∧
  (babelJestTransformer configs = None →
   (∀ hook, afterProcess (hooks configs) = Some hook → hook args (RString input) = None) →
   r.1.1 = RString input).
Proof.
  intros configs r args Hs Hd Hjs Hts. subst r args.
  rewrite process_compile_events, process_warning_events, process_result. fold configs.
  unfold piped, secondary, branch_output, classify, warning.
  rewrite Hjs, Hts, Hs, Hd. cbn [negb andb orb].
  split_and!; [done..|]. intros -> Hhook. by apply after_hook_absent.
Qed.

(** X2: a file that is neither stringified nor a declaration file and
    whose path matches TS/TSX, or JS/JSX with [allowJs] set, is compiled
    (lines 123-126): the compiler is called once, with the content and the
    path, no warning is logged, and what the compiler returns is what is
    piped through the secondary transform, if any, and offered to the
    hook. *)
Theorem compilable_file_is_compiled
    (this : TsJestTransformer) (input filePath : string) (jestCfg : loc)
    (transformOptions : option (gmap string json)) (w : World) :
  let configs := process_configs this filePath jestCfg w in
  let r := process this input filePath jestCfg transformOptions w in
  let args := (input, filePath, jestCfg, transformOptions) in
  let compiled := compile (tsCompiler configs) input filePath in
  shouldStringifyContent configs filePath = false →
  endsWith filePath DECLARATION_TYPE_EXT = false →
  (JS_JSX_REGEX_test filePath = true ∧
   truthy (json_get "allowJs" (options (parsedTsConfig configs))) = true) ∨
  (JS_JSX_REGEX_test filePath = false ∧ TS_TSX_REGEX_test filePath = true) →
  List.filter is_compile (events_since w r.2) = [Compiled input filePath] ∧
  List.filter is_warning (events_since w r.2) = [] ∧
  r.1.1 = after_hook configs args
            match babelJestTransformer configs with
            | Some bj => bj_process bj compiled filePath jestCfg
                                    (without_instrument transformOptions)
            | None => RString compiled
            end.
Proof.
  intros configs r args compiled Hs Hd Hcase. subst r args compiled.
  rewrite process_compile_events, process_warning_events, process_result. fold configs.
  unfold piped, secondary, branch_output, classify, warning.
  rewrite Hs, Hd.
  destruct Hcase as [[-> ->]|[-> ->]]; cbn [negb andb orb]; done.
Qed.

(** X3: a call of [process] logs at most one warning, calls the compiler
    at most once and the secondary transform at most once, and never both
    warns and compiles: a file is compiled, or warned about, or neither. *)
Theorem process_warns_or_compiles_once
    (this : TsJestTransformer) (input filePath : string) (jestCfg : loc)
    (transformOptions : option (gmap string json)) (w : World) :
  let events := events_since w (process this input filePath jestCfg transformOptions w).2 in
  length (List.filter is_warning events) + length (List.filter is_compile events) ≤ 1 ∧
  length (List.filter is_babel events) ≤ 1 ∧
  length (List.filter is_hook events) ≤ 1.
Proof.
  intros events. subst events.
  rewrite process_warning_events, process_compile_events, process_babel_events,
    process_hook_events.
  repeat case_match; simpl; lia.
Qed.

(** X4: the [afterProcess] hook (lines 146-153), when the set has one, is
    called exactly once, after everything else, with the arguments of
    [process] and the result so far; what it returns is the result, unless
    it returns [undefined], which leaves the result as it was.  Without a
    hook nothing is called. *)
Theorem afterProcess_hook_protocol
    (this : TsJestTransformer) (input filePath : string) (jestCfg : loc)
    (transformOptions : option (gmap string json)) (w : World) :
  let configs := process_configs this filePath jestCfg w in
  let r := process this input filePath jestCfg transformOptions w in
  let args := (input, filePath, jestCfg, transformOptions) in
  let result := piped configs input filePath jestCfg transformOptions in
  (∀ hook, afterProcess (hooks configs) = Some hook →
     List.filter is_hook (events_since w r.2) = [HookCalled args result] ∧
     last (events_since w r.2) = Some (HookCalled args result) ∧
     r.1.1 = default result (hook args result)) ∧
  (afterProcess (hooks configs) = None →
     List.filter is_hook (events_since w r.2) = [] ∧ r.1.1 = result).
Proof.
  intros configs r args result. subst r args result.
  rewrite process_hook_events, process_result, process_events. fold configs.
  unfold after_hook, hook_events.
  split.
  - intros hook ->. split_and!; [done| |done].
    by rewrite !last_app.
  - by intros ->.
Qed.

(** *** More on the configuration-set cache *)

Lemma same_entry_refl e : same_entry e e.
Proof. by split_and!. Qed.

Lemma cache_kept_refl c : cache_kept c c.
Proof. split; [done|]. eauto using same_entry_refl. Qed.

Lemma cache_kept_trans c1 c2 c3 : cache_kept c1 c2 → cache_kept c2 c3 → cache_kept c1 c3.
Proof.
  intros [Hl1 H1] [Hl2 H2]. split; [lia|]. intros i e Hi.
  destruct (H1 i e Hi) as (e' & Hi' & ? & ? & ?).
  destruct (H2 i e' Hi') as (e'' & Hi'' & ? & ? & ?).
  exists e''. split; [done|]. split_and!; congruence.
Qed.

Lemma configsFor_kept this a w :
  cache_kept (_cachedConfigSets w) (_cachedConfigSets (configsFor this a w).2).
Proof.
  configsFor_cases this a w i e Hid Hser; cbn [snd _cachedConfigSets].
  - apply cache_kept_refl.
  - apply by_serialized_Some in Hser as (Hi & _ & _).
    split; [by rewrite length_insert|]. intros j y Hj.
    destruct (decide (i = j)) as [->|Hne].
    + exists (with_value e a). rewrite list_lookup_insert_eq by eauto using lookup_lt_Some.
      split; [done|]. rewrite Hi in Hj. injection Hj as <-. by split_and!.
    + exists y. rewrite list_lookup_insert_ne by done. eauto using same_entry_refl.
  - split; [rewrite length_app; lia|]. intros j y Hj. exists y.
    rewrite lookup_app_l by eauto using lookup_lt_Some. eauto using same_entry_refl.
Qed.

Lemma configsFor_each_kept refs : ∀ this w,
  cache_kept (_cachedConfigSets w) (_cachedConfigSets (configsFor_each this refs w).2).
Proof.
  induction refs as [|a rest IH]; intros this w; [apply cache_kept_refl|].
  cbn [configsFor_each].
  pose proof (configsFor_kept this a w) as H1.
  destruct (configsFor this a w) as [[cs this1] w1].
  specialize (IH this1 w1).
  destruct (configsFor_each this1 rest w1) as [[css this2] w2].
  by eapply cache_kept_trans.
Qed.

(** X5: the cache is only added to (lines 38-90): [configsFor], and with
    it [process], [getCacheKey] and any sequence of calls, leaves every
    entry at its position, with its set, its serialized form and its
    signature; the object reference it stores is all that may change. *)
Theorem cache_entries_are_kept (this : TsJestTransformer) (w : World) :
  (∀ a, cache_kept (_cachedConfigSets w) (_cachedConfigSets (configsFor this a w).2)) ∧
  (∀ input filePath a transformOptions,
     cache_kept (_cachedConfigSets w)
                (_cachedConfigSets (process this input filePath a transformOptions w).2)) ∧
  (∀ fileContent filePath jestConfigStr transformOptions,
     cache_kept (_cachedConfigSets w)
                (_cachedConfigSets
                   (getCacheKey this fileContent filePath jestConfigStr transformOptions w).2)) ∧
  (∀ refs, cache_kept (_cachedConfigSets w)
                      (_cachedConfigSets (configsFor_each this refs w).2)).
Proof.
  split_and!.
  - intros. apply configsFor_kept.
  - intros. rewrite process_eq. exact (configsFor_kept this a (log _ _ _ w)).
  - intros. rewrite getCacheKey_eq. apply configsFor_kept.
  - intros. apply configsFor_each_kept.
Qed.

(** X6: [configsFor] always leaves the instance with a signature (lines
    44, 57, 72): after the call the configuration is found by identity, in
    an entry that holds the set returned and whose signature is the
    instance's [_transformCfgStr]; so it is after [process] and
    [getCacheKey]; the signature that [getCacheKey] digests is never
    unset. *)
Theorem instance_signature_is_that_of_the_entry
    (this : TsJestTransformer) (a : loc) (w : World) :
  (let r := configsFor this a w in
   ∃ i e, by_identity a (_cachedConfigSets r.2) = Some (i, e) ∧
          configSet e = r.1.1 ∧
          _transformCfgStr r.1.2 = Some (transformerCfgStr e)) ∧
  (∀ input filePath transformOptions,
     let r := process this input filePath a transformOptions w in
     ∃ i e, by_identity a (_cachedConfigSets r.2) = Some (i, e) ∧
            configSet e = process_configs this filePath a w ∧
            _transformCfgStr r.1.2 = Some (transformerCfgStr e)) ∧
  (∀ fileContent filePath jestConfigStr instrument rootDir,
     let o := {| cko_config := a; cko_instrument := instrument; cko_rootDir := rootDir |} in
     let r := getCacheKey this fileContent filePath jestConfigStr o w in
     ∃ i e, by_identity a (_cachedConfigSets r.2) = Some (i, e) ∧
            _transformCfgStr r.1.2 = Some (transformerCfgStr e) ∧
            ki_signature (key_inputs this fileContent filePath o w) = transformerCfgStr e).
Proof.
  split_and!.
  - destruct (configsFor_then_identity this a w) as (i & e & Hid & Hcs & Hthis).
    exists i, e. rewrite Hthis. done.
  - intros. subst r. rewrite process_eq. unfold process_configs.
    destruct (configsFor_then_identity this a
                (log Debug (Some filePath) ("processing " +:+ filePath) w))
      as (i & e & Hid & Hcs & Hthis).
    exists i, e. cbn [fst snd _cachedConfigSets]. rewrite Hthis. done.
  - intros. subst r o. rewrite getCacheKey_eq. unfold key_inputs. cbn [cko_config].
    destruct (configsFor_then_identity this a w) as (i & e & Hid & Hcs & Hthis).
    exists i, e. cbn [fst snd]. split; [exact Hid|].
    destruct (configsFor this a w) as [[cs this1] w1]. cbn [fst snd] in *.
    subst this1. done.
Qed.

(** X7: the cache belongs to the class, not to the instance (line 25):
    [configsFor] does the same whatever the instance, and an instance
    constructed later (which logs one record and touches nothing else)
    resolves a configuration to the set that an earlier instance got for
    it, without building or adding anything. *)
Theorem cache_is_shared_by_instances (this1 this2 : TsJestTransformer) (a : loc) (w : World) :
  configsFor this2 a w = configsFor this1 a w ∧
  let r := configsFor this1 a w in
  let n := TsJestTransformer_new r.2 in
  events_since r.2 n.2 =
    [Logged {| level := Debug; fileName := None; message := "created new transformer" |}] ∧
  heap n.2 = heap r.2 ∧
  _cachedConfigSets n.2 = _cachedConfigSets r.2 ∧
  (configsFor n.1 a n.2).1.1 = r.1.1 ∧
  _cachedConfigSets (configsFor n.1 a n.2).2 = _cachedConfigSets r.2 ∧
  configSetsBuilt (configsFor n.1 a n.2).2 = configSetsBuilt r.2.
Proof.
  split; [reflexivity|]. intros r n. subst r n.
  destruct (configsFor_then_identity this1 a w) as (i & e & Hid & Hcs & Hthis).
  unfold TsJestTransformer_new. cbn [fst snd].
  rewrite (configsFor_identity _ a (log _ _ _ _) i e Hid).
  unfold events_since. cbn [log emit trace heap _cachedConfigSets configSetsBuilt fst snd].
  rewrite drop_app_length. done.
Qed.

(** X8: the options of [getCacheKey] that are left out (line 176): without
    [instrument] the call is the call with [instrument: false], without
    [rootDir] it is the call with the root directory of the resolved set;
    and the configuration string, its third argument, plays no part, nor
    does the state of the instance. *)
Theorem cache_key_option_defaults
    (this : TsJestTransformer) (fileContent filePath jestConfigStr : string)
    (a : loc) (instrument : option bool) (rootDir' : option string) (w : World) :
  getCacheKey this fileContent filePath jestConfigStr
    {| cko_config := a; cko_instrument := None; cko_rootDir := rootDir' |} w
  = getCacheKey this fileContent filePath jestConfigStr
      {| cko_config := a; cko_instrument := Some false; cko_rootDir := rootDir' |} w ∧
  getCacheKey this fileContent filePath jestConfigStr
    {| cko_config := a; cko_instrument := instrument; cko_rootDir := None |} w
  = getCacheKey this fileContent filePath jestConfigStr
      {| cko_config := a; cko_instrument := instrument;
         cko_rootDir := Some (rootDir (configsFor this a w).1.1) |} w ∧
  ∀ this' jestConfigStr',
    getCacheKey this' fileContent filePath jestConfigStr'
      {| cko_config := a; cko_instrument := instrument; cko_rootDir := rootDir' |} w
    = getCacheKey this fileContent filePath jestConfigStr
        {| cko_config := a; cko_instrument := instrument; cko_rootDir := rootDir' |} w.
Proof.
  split_and!.
  - reflexivity.
  - unfold getCacheKey. cbn [cko_config cko_instrument cko_rootDir].
    by destruct (configsFor this a w) as [[cs this1] w1].
  - reflexivity.
Qed.

Lemma events_since_configsFor this a w :
  events_since w (configsFor this a w).2 = resolution_events a w.
Proof. unfold events_since. rewrite configsFor_trace. apply drop_app_length. Qed.



(** X10: the lookup by identity does not look at the object (lines 39-45):
    once a configuration has been resolved, [configsFor] returns the same
    set and signature for the same object whatever the store has become
    since, and changes nothing; [getCacheKey] then returns the key it
    returned before, even if the properties of the configuration have
    changed. *)
Theorem identity_hit_ignores_content (this : TsJestTransformer) (a : loc) (w : World) :
  (let r := configsFor this a w in
   ∀ this' h',
     configsFor this' a (with_heap r.2 h') = (r.1.1, r.1.2, with_heap r.2 h')) ∧
  (∀ fileContent filePath jestConfigStr instrument rootDir',
     let o := {| cko_config := a; cko_instrument := instrument; cko_rootDir := rootDir' |} in
     let k := getCacheKey this fileContent filePath jestConfigStr o w in
     ∀ this' jestConfigStr' h',
       (getCacheKey this' fileContent filePath jestConfigStr' o (with_heap k.2 h')).1.1
       = k.1.1).
Proof.
  destruct (configsFor_then_identity this a w) as (i & e & Hid & Hcs & Hthis).
  split.
  - intros r this' h'. subst r.
    rewrite (configsFor_identity this' a (with_heap _ h') i e Hid). by rewrite Hcs, Hthis.
  - intros. subst k o. rewrite !getCacheKey_eq. cbn [fst snd]. f_equal.
    unfold key_inputs. cbn [cko_config cko_instrument cko_rootDir].
    rewrite (configsFor_identity this' a (with_heap (log _ _ _ _) h') i e Hid).
    destruct (configsFor this a w) as [[cs this1] w1]. cbn [fst snd] in *. by subst.
Qed.

Lemma stripped_lookup (m : gmap string json) (g : json) (k : string) :
  k ≠ "cacheDirectory" → k ≠ "name" → k ≠ "globals" →
  <["cacheDirectory" := JUndefined]> (<["name" := JUndefined]> (<["globals" := g]> m)) !! k
  = m !! k.
Proof. intros. by rewrite !lookup_insert_ne. Qed.

(** X11: the object that is serialized is
    [{ digest, babel, ...jest, tsconfig }] (lines 72-80), so a property of
    the configuration named [tsconfig] never reaches the signature, while
    one named [digest] or [babel] takes the place of what the set gives:
    configurations that differ in [tsconfig] only have the same signature,
    and with a configuration that has a [digest] property, sets that differ
    in their digest only have the same signature. *)
Theorem signature_property_shadowing (h : Heap) (cs1 cs2 : ConfigSet) (a b : loc)
    (Ha : valid_cfg h a) (Hb : valid_cfg h b) :
  (delete "tsconfig" (cfg_at h a) = delete "tsconfig" (cfg_at h b) →
   (transformSignature h cs1 a).1 = (transformSignature h cs1 b).1) ∧
  (is_Some (cfg_at h a !! "digest") →
   babelConfig cs1 = babelConfig cs2 → parsedTsConfig cs1 = parsedTsConfig cs2 →
   (transformSignature h cs1 a).1 = (transformSignature h cs2 a).1) ∧
  (is_Some (cfg_at h a !! "babel") →
   tsJestDigest cs1 = tsJestDigest cs2 → parsedTsConfig cs1 = parsedTsConfig cs2 →
   (transformSignature h cs1 a).1 = (transformSignature h cs2 a).1).
Proof.
  split_and!.
  - intros Hdel. rewrite !transformSignature_eq by done. do 3 f_equal.
    unfold signature_content.
    assert (∀ k, k ≠ "tsconfig" → cfg_at h a !! k = cfg_at h b !! k) as Hk.
    { intros k Hne. apply (f_equal (λ m, m !! k)) in Hdel.
      by rewrite !lookup_delete_ne in Hdel. }
    assert (cfg_get h a "globals" = cfg_get h b "globals") as ->.
    { unfold cfg_get. by rewrite Hk. }
    apply map_eq. intros k. destruct (decide (k = "tsconfig")) as [->|Hne].
    { by rewrite !lookup_insert_eq. }
    rewrite !(lookup_insert_ne _ "tsconfig") by done.
    rewrite !lookup_union.
    destruct (decide (k = "cacheDirectory")) as [->|?]; [by rewrite !lookup_insert_eq|].
    destruct (decide (k = "name")) as [->|?].
    { by rewrite !(lookup_insert_ne _ "cacheDirectory"), !lookup_insert_eq. }
    destruct (decide (k = "globals")) as [->|?].
    { by rewrite !(lookup_insert_ne _ "cacheDirectory"), !(lookup_insert_ne _ "name"),
        !lookup_insert_eq. }
    rewrite !stripped_lookup by done. by rewrite !lookup_fmap, Hk.
  - intros [v Hv] Hbabel Hts. rewrite !transformSignature_eq by done. do 3 f_equal.
    unfold signature_content. rewrite Hbabel, Hts. f_equal.
    apply map_eq. intros k. rewrite !lookup_union.
    destruct (decide (k = "digest")) as [->|Hne].
    + rewrite stripped_lookup by done. rewrite lookup_fmap, Hv. simpl.
      by rewrite !(lookup_insert_ne _ "babel"), !lookup_insert_eq.
    + destruct (decide (k = "babel")) as [->|?]; [by rewrite !lookup_insert_eq|].
      by rewrite !(lookup_insert_ne _ "babel"), !(lookup_insert_ne _ "digest").
  - intros [v Hv] Hdigest Hts. rewrite !transformSignature_eq by done. do 3 f_equal.
    unfold signature_content. rewrite Hdigest, Hts. f_equal.
    apply map_eq. intros k. rewrite !lookup_union.
    destruct (decide (k = "babel")) as [->|Hne].
    + rewrite stripped_lookup by done. rewrite lookup_fmap, Hv. simpl.
      by rewrite !lookup_insert_eq.
    + by rewrite !(lookup_insert_ne _ "babel").
Qed.




(** X13: building, adding and logging go together (lines 59-86): when both
    lookups fail [configsFor] logs that it creates a set, builds one, adds
    one entry, at the end, which stores the configuration and the set
    returned; otherwise it logs nothing, builds nothing, adds nothing and
    allocates nothing. *)
Theorem configsFor_builds_when_it_adds (this : TsJestTransformer) (a : loc) (w : World) :
  let r := configsFor this a w in
  let events := events_since w r.2 in
  length (_cachedConfigSets r.2) = length (_cachedConfigSets w) + length events ∧
  configSetsBuilt r.2 = configSetsBuilt w + length events ∧
  (events = [] ↔
   is_Some (by_identity a (_cachedConfigSets w)) ∨
   is_Some (by_serialized (stringify (snapshot (heap w) a)) (_cachedConfigSets w))) ∧
  (events = [] → heap r.2 = heap w) ∧
  (events ≠ [] →
   events = [Logged {| level := Info; fileName := None;
                       message := "no matching config-set found, creating a new one" |}] ∧
   cs_id r.1.1 = configSetsBuilt w ∧
   ∃ e, _cachedConfigSets r.2 = _cachedConfigSets w ++ [e] ∧
        value (jestConfig e) = a ∧ configSet e = r.1.1 ∧
        _transformCfgStr r.1.2 = Some (transformerCfgStr e)).
Proof.
  intros r events. subst r events. rewrite events_since_configsFor.
  unfold resolution_events.
  configsFor_cases this a w i e Hid Hser; rewrite ?Hid, ?Hser;
    cbn [fst snd _cachedConfigSets configSetsBuilt heap length cs_id].
  - split_and!; [lia|lia|split; eauto|done|done].
  - rewrite length_insert. split_and!; [lia|lia|split; eauto|done|done].
  - rewrite length_app. cbn [length]. split_and!; [lia|lia| | |].
    + split; [done|]. intros [[? [=]]|[? [=]]].
    + done.
    + intros _. split_and!; [done..|]. eexists. split; [reflexivity|]. done.
Qed.

Lemma configsFor_set_ids this a w : set_ids_inv w → set_ids_inv (configsFor this a w).2.
Proof.
  intros [Hlt Hnd].
  configsFor_cases this a w i e Hid Hser; [done|..]; split;
    cbn [snd _cachedConfigSets configSetsBuilt].
  - apply by_serialized_Some in Hser as (Hi & _ & _).
    apply Forall_insert; [done|]. rewrite Forall_lookup in Hlt. exact (Hlt i e Hi).
  - apply by_serialized_Some in Hser as (Hi & _ & _).
    rewrite list_fmap_insert, list_insert_id; [done|]. by rewrite list_lookup_fmap, Hi.
  - apply Forall_app. split; [|apply Forall_singleton; simpl; lia].
    eapply Forall_impl; [exact Hlt|]. simpl. intros; lia.
  - rewrite fmap_app. apply NoDup_app. split_and!; [done| |apply NoDup_singleton].
    intros n Hn Hin. apply list_elem_of_singleton in Hin. subst n.
    apply list_elem_of_fmap in Hn as (y & Hy & Hin).
    rewrite Forall_forall in Hlt. specialize (Hlt y Hin). simpl in Hy. lia.
Qed.

(** X14: the sets of the cache are different objects (line 63 builds one
    for each entry added): in a cache whose sets are distinct and all
    built so far, which the empty cache is, [configsFor], [process] and
    [getCacheKey] keep it so, and two entries never hold the same set. *)
Theorem cached_sets_are_distinct (this : TsJestTransformer) (a : loc) (w : World)
    (Hids : set_ids_inv w) :
  let w' := (configsFor this a w).2 in
  set_ids_inv w' ∧
  (∀ i j e1 e2, _cachedConfigSets w' !! i = Some e1 → _cachedConfigSets w' !! j = Some e2 →
                configSet e1 = configSet e2 → i = j) ∧
  (∀ input filePath transformOptions,
     set_ids_inv (process this input filePath a transformOptions w).2) ∧
  (∀ fileContent filePath jestConfigStr instrument rootDir',
     set_ids_inv (getCacheKey this fileContent filePath jestConfigStr
                    {| cko_config := a; cko_instrument := instrument;
                       cko_rootDir := rootDir' |} w).2).
Proof.
  intros w'. subst w'.
  pose proof (configsFor_set_ids this a w Hids) as Hids'.
  split_and!; [done| | |].
  - intros i j e1 e2 Hi Hj Heq. destruct Hids' as [_ Hnd].
    eapply (NoDup_lookup _ _ _ _ Hnd); rewrite list_lookup_fmap.
    + by rewrite Hi.
    + rewrite Hj. simpl. by rewrite Heq.
  - intros. rewrite process_eq. exact (configsFor_set_ids this a (log _ _ _ w) Hids).
  - intros. rewrite getCacheKey_eq. exact (configsFor_set_ids this a w Hids).
Qed.

End Transformer.

(** ** The SHA-1 digest is 40 hexadecimal characters *)

Lemma hex_digit_is_hex (n : N) : is_hex (hex_digit n) = true.
Proof.
  unfold hex_digit. generalize (N.to_nat n). intros m.
  do 16 (destruct m as [|m]; [reflexivity|]).
  simpl. destruct m; reflexivity.
Qed.

Lemma hex_of_length (digits : nat) (x : Z) : String.length (SHA1.hex_of digits x) = digits.
Proof. induction digits as [|n IH]; simpl; [done|]. by rewrite IH. Qed.

Lemma hex_of_all_hex (digits : nat) (x : Z) : all_hex (SHA1.hex_of digits x) = true.
Proof.
  induction digits as [|n IH]; [done|].
  cbn [SHA1.hex_of all_hex]. by rewrite hex_digit_is_hex, IH.
Qed.

Lemma all_hex_append (x y : string) : all_hex (x +:+ y) = all_hex x && all_hex y.
Proof.
  induction x as [|c x IH]; [done|].
  rewrite append_cons. cbn [all_hex]. by rewrite IH, andb_assoc.
Qed.

Lemma sha1_hex_40 (s : string) :
  String.length (SHA1.sha1_hex s) = 40 ∧ all_hex (SHA1.sha1_hex s) = true.
Proof.
  unfold SHA1.sha1_hex.
  destruct (SHA1.compress_all _ _ _) as [[[[h0 h1] h2] h3] h4].
  rewrite !append_length, !all_hex_append, !hex_of_length, !hex_of_all_hex. done.
Qed.

Example sha1_abc : SHA1.sha1_hex "abc" = "a9993e364706816aba3e25717850c26c9cd0d89d".
Proof. vm_compute. reflexivity. Qed.

Example sha1_empty : SHA1.sha1_hex EmptyString = "da39a3ee5e6b4b0d3255bfef95601890afd80709".
Proof. vm_compute. reflexivity. Qed.

Example sha1_two_blocks :
  SHA1.sha1_hex "abcdbcdecdefdefgefghfghighijhijkijkljklmklmnlmnomnopnopq"
  = "84983e441c3bd26ebaae4aa1f95129e5e54670f1".
Proof. vm_compute. reflexivity. Qed.

(** ** The transformer on the sample store *)

Local Abbreviation sample_configsFor := (configsFor StableJson.stringify (read_only Sample.ConfigSet_new)).
Local Abbreviation sample_process := (process StableJson.stringify (read_only Sample.ConfigSet_new)).
Local Abbreviation sample_getCacheKey :=
  (getCacheKey StableJson.stringify (read_only Sample.ConfigSet_new) SHA1.sha1_hex).


Lemma sample_valid (a : loc) : a < 10 → valid_cfg Sample.store a.
Proof.
  intros Ha. do 10 (destruct a as [|a]; [by apply (bool_decide_unpack _); vm_compute|]).
  lia.
Qed.


(** *** The transformer with a constructor that removes deprecated keys *)

Local Abbreviation pruning_configsFor :=
  (configsFor StableJson.stringify Deprecated.ConfigSet_new).

Lemma deprecated_valid (a : loc) : a < 5 → valid_cfg Deprecated.store a.
Proof.
  intros Ha. do 5 (destruct a as [|a]; [by apply (bool_decide_unpack _); vm_compute|]).
  lia.
Qed.

(** It leaves the objects of the store as they are when it builds a set
    for a configuration without deprecated keys. *)
Lemma pruning_keeps_store (h0 : Heap) (a : loc) :
  valid_cfg h0 a → Deprecated.clean h0 a → keeps_store Deprecated.ConfigSet_new h0 a.
Proof.
  intros Ha Hclean h He. unfold Deprecated.ConfigSet_new. cbn [snd].
  assert (cfg_get h a "globals" = cfg_get h0 a "globals") as ->.
  { unfold cfg_get. rewrite (cfg_at_ext h0 h); [done..|apply Ha]. }
  pose proof (cfg_get_ok h0 a "globals" Ha) as Hok.
  unfold Deprecated.clean in Hclean.
  destruct (cfg_get h0 a "globals") as [j|g]; [apply heap_ext_refl|].
  simpl in Hok. rewrite <- (obj_at_ext h0 h g He Hok) in Hclean.
  assert (alter Deprecated.prune g (h_obj h) = h_obj h) as ->.
  { apply list_eq. intros i. destruct (decide (g = i)) as [<-|Hne].
    - rewrite list_lookup_alter_eq. unfold obj_at in Hclean.
      destruct (h_obj h !! g) as [o|]; [|done]. simpl in *. by rewrite Hclean.
    - by rewrite list_lookup_alter_ne. }
  destruct h. apply heap_ext_refl.
Qed.

Lemma deprecated_keeps_store (a : loc) :
  a = 3 ∨ a = 4 → keeps_store Deprecated.ConfigSet_new Deprecated.store a.
Proof.
  intros [->| ->]; (apply pruning_keeps_store; [apply deprecated_valid; lia|]);
    vm_compute; reflexivity.
Qed.

(** *** C1 *)



(** *** C2 *)

(** C2, the claim as stated fails: two invocations that differ in file
    content and file path are given the same key, with SHA-1 and with a
    digest that has no collisions at all (the identity), since the texts
    that are digested are the same. *)
Lemma cache_key_NUL_collision :
  let o := {| cko_config := 9; cko_instrument := None; cko_rootDir := None |} in
  let c1 := "a" +:+ NUL +:+ "b" in
  let p1 := "c" in
  let c2 := "a" in
  let p2 := "b" +:+ NUL +:+ "c" in
  (sample_getCacheKey Sample.this c1 p1 "{}" o Sample.world).1.1
  = (sample_getCacheKey Sample.this c2 p2 "{}" o Sample.world).1.1 ∧
  (getCacheKey StableJson.stringify (read_only Sample.ConfigSet_new) (λ s, s)
               Sample.this c1 p1 "{}" o Sample.world).1.1
  = (getCacheKey StableJson.stringify (read_only Sample.ConfigSet_new) (λ s, s)
                 Sample.this c2 p2 "{}" o Sample.world).1.1 ∧
  c1 ≠ c2 ∧ p1 ≠ p2 ∧
  key_inputs StableJson.stringify (read_only Sample.ConfigSet_new) Sample.this c1 p1 o Sample.world
  ≠ key_inputs StableJson.stringify (read_only Sample.ConfigSet_new) Sample.this c2 p2 o Sample.world.
Proof.
  split_and!; try (vm_compute; reflexivity); vm_compute; discriminate.
Qed.

(** With SHA-1: the key is stable, and the keys of [foo.ts] and [bar.ts]
    differ, since the digested texts differ and SHA-1 does not collide on
    these two. *)
Lemma cache_key_discriminates_witness :
  let o := {| cko_config := 0; cko_instrument := Some true; cko_rootDir := Some "/foo" |} in
  let r1 := sample_getCacheKey Sample.this "export default 1" "foo.ts" "{}" o Sample.world in
  let r2 := sample_getCacheKey Sample.this "export default 1" "bar.ts" "{}" o Sample.world in
  (sample_getCacheKey r1.1.2 "export default 1" "foo.ts" "{}" o r1.2).1.1 = r1.1.1 ∧
  r1.1.1 ≠ r2.1.1.
Proof.
  intros o r1 r2.
  destruct (cache_key_discriminates
              StableJson.stringify (read_only Sample.ConfigSet_new) SHA1.sha1_hex
              Sample.this "export default 1" "foo.ts" "{}" o Sample.world
              Sample.this "export default 1" "bar.ts" "{}" o Sample.world)
    as (_ & Hrepeat & _ & Hone & _).
  split; [exact Hrepeat|].
  intros Hkeys.
  destruct (Hone FilePath) as [_ Hcollision].
  - split_and!; intros Hd; try (vm_compute; reflexivity). by destruct Hd.
  - intros H. apply (f_equal ki_filePath) in H. vm_compute in H. discriminate.
  - destruct (Hcollision Hkeys) as [_ Hdigest]. vm_compute in Hdigest. discriminate.
Defined.

(** *** C3 *)

(** C3, the claim as stated fails: configuration 7 has a secondary
    transform, and the output of the stringify branch is not piped through
    it. *)
Lemma stringified_output_not_piped :
  babelJestTransformer
    (process_configs StableJson.stringify (read_only Sample.ConfigSet_new) Sample.this "foo.html" 7
                     Sample.world)
  = Some Sample.babelJest ∧
  List.filter is_babel
    (events_since Sample.world (sample_process Sample.this "<p>" "foo.html" 7 None Sample.world).2)
  = [] ∧
  (sample_process Sample.this "<p>" "foo.html" 7 None Sample.world).1.1
  = RString ("module.exports=" +:+ DQUOTE +:+ "<p>" +:+ DQUOTE).
Proof. split_and!; vm_compute; reflexivity. Qed.

Lemma secondary_transform_piping_witness :
  let topts := Some ({[ "instrument" := JBool true ]} : gmap string json) in
  let r := sample_process Sample.this "foo" "foo.js" 6 topts Sample.world in
  List.filter is_babel (events_since Sample.world r.2)
  = [BabelProcessed "foo" "foo.js" 6 {[ "instrument" := JBool false ]}] ∧
  r.1.1 = RSource "/* babel */ foo" (JObj [("instrument", JBool false)]).
Proof.
  intros topts r.
  destruct (secondary_transform_piping StableJson.stringify (read_only Sample.ConfigSet_new)
              Sample.this "foo" "foo.js" 6 topts Sample.world) as (_ & _ & H & _).
  destruct (H Sample.babelJest) as (_ & Hevents & Hresult);
    [vm_compute; reflexivity | vm_compute; reflexivity |].
  split.
  - etrans; [exact Hevents|]. vm_compute. reflexivity.
  - etrans; [exact Hresult|]. vm_compute. reflexivity.
Defined.

(** *** C4 *)



(** *** C5 *)

Lemma signature_ignores_stripped_fields_witness :
  let cs3 := {| cs_id := 0; cs_fields := Sample.ConfigSet_new (snapshot Sample.store 3) |} in
  let cs4 := {| cs_id := 1; cs_fields := Sample.ConfigSet_new (snapshot Sample.store 4) |} in
  (transformSignature StableJson.stringify Sample.store cs3 3).1
  = (transformSignature StableJson.stringify Sample.store cs4 4).1 ∧
  (sample_configsFor Sample.this 3 Sample.world).1.2
  = (sample_configsFor Sample.this 4 Sample.world).1.2.
Proof.
  intros cs3 cs4.
  destruct (signature_ignores_stripped_fields StableJson.stringify (read_only Sample.ConfigSet_new)
              Sample.store Sample.store cs3 cs4 3 4) as [Hsig Hcfg].
  - apply sample_valid. lia.
  - apply sample_valid. lia.
  - split; vm_compute; reflexivity.
  - reflexivity.
  - vm_compute. reflexivity.
  - vm_compute. reflexivity.
  - split; [exact Hsig|].
    apply Hcfg; try reflexivity; vm_compute; reflexivity.
Defined.

(** *** C6 *)

(** C6: [getCacheKey] returns a string of exactly 40 characters, each a
    hexadecimal digit, whatever the file content, the file path, the
    configuration string and the options: the key is the digest of a text,
    so it is with every digest of that format, and with SHA-1. *)
Theorem cache_key_is_40_hex :
  (∀ (stringify : json → string) (ConfigSet_new : Heap → loc → ConfigSetFields * Heap)
     (digest : string → string),
     (∀ s, String.length (digest s) = 40 ∧ all_hex (digest s) = true) →
     ∀ this fileContent filePath jestConfigStr transformOptions w,
       let key := (getCacheKey stringify ConfigSet_new digest this fileContent filePath
                               jestConfigStr transformOptions w).1.1 in
       String.length key = 40 ∧ all_hex key = true) ∧
  (∀ (stringify : json → string) (ConfigSet_new : Heap → loc → ConfigSetFields * Heap)
     this fileContent filePath jestConfigStr transformOptions w,
     let key := (getCacheKey stringify ConfigSet_new SHA1.sha1_hex this fileContent filePath
                             jestConfigStr transformOptions w).1.1 in
     String.length key = 40 ∧ all_hex key = true).
Proof.
  split.
  - intros stringify ConfigSet_new digest Hdigest. intros.
    by apply cache_key_has_digest_format.
  - intros. apply cache_key_has_digest_format. apply sha1_hex_40.
Qed.

Lemma cache_key_is_40_hex_witness :
  let key := (sample_getCacheKey Sample.this "export default 1" "foo.ts" "{}"
                {| cko_config := 0; cko_instrument := None; cko_rootDir := None |}
                Sample.world).1.1 in
  (String.length key = 40 ∧ all_hex key = true) ∧
  key = "b1b21ddbcc65f91fc0a7df12f2f8c76eda8599dc".
Proof.
  intros key. split.
  - exact (proj1 cache_key_is_40_hex StableJson.stringify (read_only Sample.ConfigSet_new) SHA1.sha1_hex
             sha1_hex_40 Sample.this "export default 1" "foo.ts" "{}"
             {| cko_config := 0; cko_instrument := None; cko_rootDir := None |}
             Sample.world).
  - vm_compute. reflexivity.
Defined.

(** *** C7 *)

(** C7, the claim as stated fails: [foo.d.ts] is stringified when its path
    matches the stringify pattern (configuration 8), is piped through the
    secondary transform when one is configured (configuration 6), and is
    given to the [afterProcess] hook when there is one. *)
Lemma declaration_file_results_not_empty :
  endsWith "foo.d.ts" DECLARATION_TYPE_EXT = true ∧
  (sample_process Sample.this "type Foo = number" "foo.d.ts" 8 None Sample.world).1.1
  = RString ("module.exports=" +:+ DQUOTE +:+ "type Foo = number" +:+ DQUOTE) ∧
  (sample_process Sample.this "type Foo = number" "foo.d.ts" 6 None Sample.world).1.1
  = RSource "/* babel */ " (JObj [("instrument", JBool false)]) ∧
  (process StableJson.stringify (read_only Sample.hooked_ConfigSet_new)
           Sample.this "type Foo = number" "foo.d.ts" 9 None Sample.world).1.1
  = RString "/* hooked */".
Proof. split_and!; vm_compute; reflexivity. Qed.

Lemma declaration_file_not_compiled_witness :
  let r := sample_process Sample.this "type Foo = number" "foo.d.ts" 9 None Sample.world in
  List.filter is_compile (events_since Sample.world r.2) = [] ∧ r.1.1 = RString EmptyString.
Proof.
  intros r.
  destruct (declaration_file_not_compiled StableJson.stringify (read_only Sample.ConfigSet_new)
              Sample.this "type Foo = number" "foo.d.ts" 9 None Sample.world)
    as (Hevents & H); [vm_compute; reflexivity|].
  split; [exact Hevents|].
  destruct H as (_ & _ & H); [vm_compute; reflexivity|].
  apply H; [vm_compute; reflexivity|]. intros hook Hhook. vm_compute in Hhook. discriminate.
Defined.

(** *** C8 *)

(** C8, the claim as stated fails: with an [afterProcess] hook that
    returns a value, [process] returns that value and not the module
    body. *)
Lemma stringified_module_replaced_by_hook :
  shouldStringifyContent
    (process_configs StableJson.stringify (read_only Sample.hooked_ConfigSet_new) Sample.this "foo.html" 5
                     Sample.world) "foo.html" = true ∧
  (process StableJson.stringify (read_only Sample.hooked_ConfigSet_new)
           Sample.this "<h1>Hello World</h1>" "foo.html" 5 None Sample.world).1.1
  = RString "/* hooked */".
Proof. split; vm_compute; reflexivity. Qed.

(** C8, as amended: for a file whose path matches the stringify pattern,
    the stringify branch is selected, neither the compiler nor the secondary
    transform is called, and [process] returns the module body
    [module.exports=] followed by the stringified content, unless an
    [afterProcess] hook replaces it; the stringified content is the content
    JSON-escaped and quoted, and [<h1>Hello World</h1>] at [foo.html] under
    a pattern matching [.html] yields
    [module.exports="<h1>Hello World</h1>"]. *)
Theorem stringified_content_module :
  (∀ (stringify : json → string) (ConfigSet_new : Heap → loc → ConfigSetFields * Heap)
     (this : TsJestTransformer) (input filePath : string) (jestCfg : loc)
     (transformOptions : option (gmap string json)) (w : World),
     let configs := process_configs stringify ConfigSet_new this filePath jestCfg w in
     let r := process stringify ConfigSet_new this input filePath jestCfg transformOptions w in
     let module := RString ("module.exports=" +:+ stringify (JStr input)) in
     shouldStringifyContent configs filePath = true →
     (∀ hook, afterProcess (hooks configs) = Some hook →
              hook (input, filePath, jestCfg, transformOptions) module = None) →
     classify configs filePath = Stringify ∧
     r.1.1 = module ∧
     List.filter is_compile (events_since w r.2) = [] ∧
     List.filter is_babel (events_since w r.2) = []) ∧
  (∀ s, StableJson.stringify (JStr s) = DQUOTE +:+ StableJson.escape s +:+ DQUOTE) ∧
  (sample_process Sample.this "<h1>Hello World</h1>" "foo.html" 5 None Sample.world).1.1
  = RString ("module.exports=" +:+ DQUOTE +:+ "<h1>Hello World</h1>" +:+ DQUOTE).
Proof.
  split_and!.
  - intros stringify ConfigSet_new this input filePath jestCfg transformOptions w
      configs r module Hs Hhook.
    destruct (process_stringify stringify ConfigSet_new this input filePath jestCfg
                transformOptions w Hs) as (Hc & Hcompile & Hbabel & _ & Hresult).
    split_and!; auto.
  - reflexivity.
  - vm_compute. reflexivity.
Qed.

Lemma stringified_content_module_witness :
  let r := sample_process Sample.this "<p>a &amp; b</p>" "page.html" 5 None Sample.world in
  r.1.1 = RString ("module.exports=" +:+ StableJson.stringify (JStr "<p>a &amp; b</p>")) ∧
  List.filter is_compile (events_since Sample.world r.2) = [].
Proof.
  intros r.
  destruct stringified_content_module as (H & _ & _).
  destruct (H StableJson.stringify (read_only Sample.ConfigSet_new) Sample.this
              "<p>a &amp; b</p>" "page.html" 5 None Sample.world)
    as (_ & Hresult & Hcompile & _).
  - vm_compute. reflexivity.
  - intros hook Hhook. vm_compute in Hhook. discriminate.
  - split; [exact Hresult|exact Hcompile].
Defined.

(** *** C9 *)

(** C9, the claim as stated fails: configuration 6 has a secondary
    transform and leaves [allowJs] unset; [foo.js] is neither stringified
    nor a declaration file, and [process] returns what the secondary
    transform makes of the content, not the content. *)
Lemma disallowed_js_piped_through_babel :
  let configs := process_configs StableJson.stringify (read_only Sample.ConfigSet_new) Sample.this
                                 "foo.js" 6 Sample.world in
  JS_JSX_REGEX_test "foo.js" = true ∧
  truthy (json_get "allowJs" (options (parsedTsConfig configs))) = false ∧
  shouldStringifyContent configs "foo.js" = false ∧
  endsWith "foo.js" DECLARATION_TYPE_EXT = false ∧
  (sample_process Sample.this "foo" "foo.js" 6 None Sample.world).1.1
  = RSource "/* babel */ foo" (JObj [("instrument", JBool false)]) ∧
  (sample_process Sample.this "foo" "foo.js" 6 None Sample.world).1.1 ≠ RString "foo".
Proof. split_and!; try (vm_compute; reflexivity). vm_compute. discriminate. Qed.

Lemma disallowed_js_passes_through_witness :
  let r := sample_process Sample.this "const foo = 1" "foo.js" 2 None Sample.world in
  r.1.1 = RString "const foo = 1" ∧
  List.filter is_warning (events_since Sample.world r.2) =
    [Logged {| level := Warn; fileName := Some "foo.js";
               message := interpolate GotJsFileButAllowJsFalse "foo.js" |}].
Proof.
  intros r.
  destruct (disallowed_js_passes_through StableJson.stringify (read_only Sample.ConfigSet_new)
              Sample.this "const foo = 1" "foo.js" 2 None Sample.world)
    as (_ & _ & Hwarn & _ & _ & Hresult); try (vm_compute; reflexivity).
  split; [|exact Hwarn].
  apply Hresult; [vm_compute; reflexivity|].
  intros hook Hhook. vm_compute in Hhook. discriminate.
Defined.

(** *** C10 *)

(** C10, the claim as stated fails: [configsFor] hands the object to the
    constructor (line 63), and with a constructor that removes deprecated
    keys from the object it is given, the caller's [globals] have lost
    [__TRANSFORM_HTML__], and their [ts-jest] entry its [typeCheck], after
    [configsFor], [getCacheKey] and [process]. *)
Lemma constructor_changes_the_raw_configuration :
  let q := DQUOTE in
  let o := {| cko_config := 2; cko_instrument := None; cko_rootDir := None |} in
  let after_configsFor := heap (pruning_configsFor Sample.this 2 Deprecated.world).2 in
  let after_getCacheKey :=
    heap (getCacheKey StableJson.stringify Deprecated.ConfigSet_new SHA1.sha1_hex
                      Sample.this "const foo = 1" "foo.ts" "{}" o Deprecated.world).2 in
  let after_process :=
    heap (process StableJson.stringify Deprecated.ConfigSet_new
                  Sample.this "const foo = 1" "foo.ts" 2 None Deprecated.world).2 in
  valid_cfg Deprecated.store 2 ∧
  cfg_get Deprecated.store 2 "globals" = CRef 2 ∧
  obj_get Deprecated.store 2 "__TRANSFORM_HTML__" = JBool true ∧
  obj_get Deprecated.store 2 "ts-jest" = JObj [("typeCheck", JBool true)] ∧
  (cfg_get after_configsFor 2 "globals" = CRef 2 ∧
   obj_get after_configsFor 2 "__TRANSFORM_HTML__" = JUndefined ∧
   obj_get after_configsFor 2 "ts-jest" = JObj [] ∧
   StableJson.stringify (snapshot after_configsFor 2)
   = "{" +:+ q +:+ "globals" +:+ q +:+ ":{" +:+ q +:+ "ts-jest" +:+ q +:+ ":{}}}" ∧
   ¬ untouched Deprecated.store after_configsFor 2) ∧
  (obj_get after_getCacheKey 2 "ts-jest" = JObj [] ∧
   ¬ untouched Deprecated.store after_getCacheKey 2) ∧
  (obj_get after_process 2 "ts-jest" = JObj [] ∧
   ¬ untouched Deprecated.store after_process 2).
Proof.
  intros q o after_configsFor after_getCacheKey after_process.
  split_and!; try (vm_compute; reflexivity).
  - apply deprecated_valid. lia.
  - intros (_ & _ & _ & _ & _ & H & _). vm_compute in H. discriminate.
  - intros (_ & _ & _ & _ & _ & H & _). vm_compute in H. discriminate.
  - intros (_ & _ & _ & _ & _ & H & _). vm_compute in H. discriminate.
Qed.

(** With a constructor that only reads, and with the constructor that
    removes deprecated keys, for a configuration that has none. *)
Lemma raw_configuration_not_mutated_witness :
  let w' := (sample_configsFor Sample.this 3 Sample.world).2 in
  let w'' := (pruning_configsFor Sample.this 3 Deprecated.world).2 in
  (untouched Sample.store (heap w') 3 ∧
   cfg_get (heap w') 3 "name" = CData (JStr "one") ∧
   obj_get (heap w') 3 "ts-jest" = JObj []) ∧
  untouched Deprecated.store (heap w'') 3.
Proof.
  intros w' w''. split; [split|].
  - destruct (raw_configuration_not_mutated StableJson.stringify
                (read_only Sample.ConfigSet_new) SHA1.sha1_hex Sample.this 3 Sample.world
                (sample_valid 3 ltac:(lia))) as (_ & _ & _ & H).
    apply H, heap_ext_refl.
  - split; vm_compute; reflexivity.
  - destruct (raw_configuration_not_mutated StableJson.stringify
                Deprecated.ConfigSet_new SHA1.sha1_hex Sample.this 3 Deprecated.world
                (deprecated_valid 3 ltac:(lia))) as (_ & _ & _ & H).
    apply H, keeps_store_here, deprecated_keeps_store. by left.
Defined.

(** *** The transformer's own tests, on the sample store *)

(** [getCacheKey]: a key for each argument value, each of length 40. *)
Example cache_keys_differ_for_each_argument :
  let o := {| cko_config := 9; cko_instrument := Some false; cko_rootDir := Some "/foo" |} in
  let keys :=
    [ (sample_getCacheKey Sample.this "export default 1" "foo.ts" "{}" o Sample.world).1.1;
      (sample_getCacheKey Sample.this "export default 1" "bar.ts" "{}" o Sample.world).1.1;
      (sample_getCacheKey Sample.this "export default 1" "foo.ts" "{}"
         {| cko_config := 9; cko_instrument := Some true; cko_rootDir := Some "/foo" |}
         Sample.world).1.1;
      (sample_getCacheKey Sample.this "export default 1" "foo.ts" "{}"
         {| cko_config := 9; cko_instrument := Some false; cko_rootDir := Some "/bar" |}
         Sample.world).1.1 ] in
  NoDup keys ∧ Forall (λ k, String.length k = 40) keys.
Proof.
  intros o keys. split.
  - apply (bool_decide_unpack _). vm_compute. exact I.
  - apply (bool_decide_unpack _). vm_compute. exact I.
Qed.

(** [process]: a file with an unknown extension is returned as it is, with
    a warning. *)
Example unknown_extension_passes_through :
  let r := sample_process Sample.this "foo" "foo.bar" 0 None Sample.world in
  r.1.1 = RString "foo" ∧
  List.filter is_warning (events_since Sample.world r.2) =
    [Logged {| level := Warn; fileName := Some "foo.bar";
               message := "Got a unknown file type to compile (file: foo.bar). To fix this, in your Jest config change the `transform` key which value is `ts-jest` so that it does not match this kind of files anymore." |}].
Proof. split; vm_compute; reflexivity. Qed.

(** [process]: [foo.ts] and [foo.tsx] are compiled, and so are [foo.js] and
    [foo.jsx] when [allowJs] is set. *)
Example ts_and_allowed_js_are_compiled :
  Forall (λ filePath,
            (sample_process Sample.this "const foo = 1" filePath 0 None Sample.world).1.1
            = RString "/* compiled */ const foo = 1")
         ["foo.ts"; "foo.tsx"; "foo.js"; "foo.jsx"].
Proof. repeat constructor; vm_compute; reflexivity. Qed.

(** *** Further properties, on the sample store *)

(** X1 at [foo.bar] with configuration 0: no secondary transform, no
    hook. *)
Lemma unknown_file_type_passes_through_witness :
  let r := sample_process Sample.this "foo" "foo.bar" 0 None Sample.world in
  r.1.1 = RString "foo" ∧
  List.filter is_compile (events_since Sample.world r.2) = [].
Proof.
  intros r.
  destruct (unknown_file_type_passes_through StableJson.stringify (read_only Sample.ConfigSet_new)
              Sample.this "foo" "foo.bar" 0 None Sample.world)
    as (_ & Hcompile & _ & Hresult); try (vm_compute; reflexivity).
  split; [|exact Hcompile].
  apply Hresult; [vm_compute; reflexivity|].
  intros hook Hhook. vm_compute in Hhook. discriminate.
Defined.

(** X2 at [foo.ts] with configuration 2, which does not allow JS. *)
Lemma compilable_file_is_compiled_witness :
  let r := sample_process Sample.this "const foo = 1" "foo.ts" 2 None Sample.world in
  List.filter is_compile (events_since Sample.world r.2) = [Compiled "const foo = 1" "foo.ts"] ∧
  List.filter is_warning (events_since Sample.world r.2) = [].
Proof.
  intros r.
  destruct (compilable_file_is_compiled StableJson.stringify (read_only Sample.ConfigSet_new)
              Sample.this "const foo = 1" "foo.ts" 2 None Sample.world)
    as (Hcompile & Hwarn & _).
  - vm_compute. reflexivity.
  - vm_compute. reflexivity.
  - right. split; vm_compute; reflexivity.
  - split; [exact Hcompile|exact Hwarn].
Defined.

(** X4 with a hook that replaces every result. *)
Lemma afterProcess_hook_protocol_witness :
  let r := process StableJson.stringify (read_only Sample.hooked_ConfigSet_new)
                   Sample.this "const foo = 1" "foo.ts" 0 None Sample.world in
  List.filter is_hook (events_since Sample.world r.2)
  = [HookCalled ("const foo = 1", "foo.ts", 0, None) (RString "/* compiled */ const foo = 1")] ∧
  r.1.1 = RString "/* hooked */".
Proof.
  intros r.
  destruct (afterProcess_hook_protocol StableJson.stringify (read_only Sample.hooked_ConfigSet_new)
              Sample.this "const foo = 1" "foo.ts" 0 None Sample.world) as [H _].
  destruct (H (λ _ _, Some (RString "/* hooked */"))) as (Hevents & _ & Hresult);
    [vm_compute; reflexivity|].
  split.
  - etrans; [exact Hevents|]. vm_compute. reflexivity.
  - etrans; [exact Hresult|]. vm_compute. reflexivity.
Defined.


Lemma shadowing_valid (a : loc) : a < 3 → valid_cfg Shadowing.store a.
Proof.
  intros Ha. do 3 (destruct a as [|a]; [by apply (bool_decide_unpack _); vm_compute|]).
  lia.
Qed.

(** X11: a [tsconfig] property of the configuration is lost, a [digest]
    property hides the digest of the set. *)
Lemma signature_property_shadowing_witness :
  (transformSignature StableJson.stringify Shadowing.store (Shadowing.set_with_digest "one") 0).1
  = (transformSignature StableJson.stringify Shadowing.store (Shadowing.set_with_digest "one") 1).1 ∧
  (transformSignature StableJson.stringify Shadowing.store (Shadowing.set_with_digest "one") 2).1
  = (transformSignature StableJson.stringify Shadowing.store (Shadowing.set_with_digest "two") 2).1.
Proof.
  split.
  - refine (proj1 (signature_property_shadowing StableJson.stringify Shadowing.store
                     (Shadowing.set_with_digest "one") (Shadowing.set_with_digest "one") 0 1
                     _ _) _).
    + apply shadowing_valid. lia.
    + apply shadowing_valid. lia.
    + vm_compute. reflexivity.
  - refine (proj1 (proj2 (signature_property_shadowing StableJson.stringify Shadowing.store
                            (Shadowing.set_with_digest "one") (Shadowing.set_with_digest "two")
                            2 2 _ _)) _ _ _).
    + apply shadowing_valid. lia.
    + apply shadowing_valid. lia.
    + vm_compute. eauto.
    + reflexivity.
    + reflexivity.
Defined.


(** X13 with configuration 0 and the empty cache: a set is built. *)
Lemma configsFor_builds_when_it_adds_witness :
  let r := sample_configsFor Sample.this 0 Sample.world in
  cs_id r.1.1 = 0 ∧
  ∃ e, _cachedConfigSets r.2 = [e] ∧ value (jestConfig e) = 0 ∧ configSet e = r.1.1.
Proof.
  intros r.
  destruct (configsFor_builds_when_it_adds StableJson.stringify (read_only Sample.ConfigSet_new)
              Sample.this 0 Sample.world) as (_ & _ & _ & _ & H).
  destruct H as (_ & Hid & e & Hcache & Hvalue & Hset & _).
  - intros Hnil. vm_compute in Hnil. discriminate.
  - split; [exact Hid|]. exists e. split_and!; [exact Hcache|exact Hvalue|exact Hset].
Defined.

(** X14 from the empty cache. *)
Lemma cached_sets_are_distinct_witness :
  set_ids_inv (sample_configsFor Sample.this 0 Sample.world).2.
Proof.
  refine (proj1 (cached_sets_are_distinct StableJson.stringify (read_only Sample.ConfigSet_new)
                   SHA1.sha1_hex Sample.this 0 Sample.world _)).
  split; [apply Forall_nil_2|apply NoDup_nil_2].
Defined.
